(** * The GCE group plugin: registry, commit, describe, destroy

    A shallow embedding of [plugin/group/plugin.go].  The plugin keeps a
    registry [groups : map[group.ID]settings] and talks to the cloud
    through the [gcloud.API] interface.  Every public method takes the
    plugin's lock for its whole duration, so the methods are modelled as
    sequential state transformers.  The cloud is modelled by the list of
    calls made so far together with an oracle that answers each call. *)

From Stdlib Require Import ZArith String Ascii DecimalString.
From stdpp Require Import base decidable option list strings gmap.

Local Open Scope string_scope.
Local Open Scope list_scope.
Local Open Scope Z_scope.

(** ** Go values *)

(** A Go [error] is identified with its message; [nil] is [None] where a
    function returns only an error. *)
Definition error : Type := string.

(** The pair [(value, error)] returned by a fallible Go function. *)
Inductive result (A : Type) : Type :=
| Ok (a : A)
| Err (e : error).
Arguments Ok {A} a.
Arguments Err {A} e.

Definition is_Err {A} (r : result A) : Prop := ∃ e, r = Err e.

(** Conversion to a signed 64-bit integer ([int64(x)], and [int(x)] on a
    64-bit platform): the value modulo 2^64, taken in [-2^63, 2^63). *)
Definition int64 (z : Z) : Z := (z + 2 ^ 63) `mod` 2 ^ 64 - 2 ^ 63.
Definition int (z : Z) : Z := int64 z.

Definition max_int : Z := 2 ^ 63 - 1.
Definition max_uint : Z := 2 ^ 64 - 1.

(** The verb [%d] of [fmt.Sprintf]. *)
Definition fmt_d (z : Z) : string := NilZero.string_of_int (Z.to_int z).

Definition newline : string := String "010"%char EmptyString.

(** [strings.Join]. *)
Fixpoint Join (elems : list string) (sep : string) : string :=
  match elems with
  | [] => ""
  | [e] => e
  | e :: rest => e +:+ sep +:+ Join rest sep
  end.

(** [strings.Split] for a separator of one character: the pieces between
    the occurrences of [sep], at least one piece. *)
Fixpoint Split (s : string) (sep : ascii) : list string :=
  match s with
  | EmptyString => [""]
  | String c rest =>
      if Ascii.eqb c sep then "" :: Split rest sep
      else match Split rest sep with
           | [] => [String c ""]
           | piece :: pieces => String c piece :: pieces
           end
  end.

(** ** The packages the plugin imports *)

(** [github.com/docker/infrakit/pkg/spi/group] *)
Module group.
Definition ID : Type := string.
Record Spec : Type := { id : ID; Properties : string }.
Record Description (I : Type) : Type :=
  { Instances : list I; Converged : bool }.
Arguments Instances {I} _.
Arguments Converged {I} _.
End group.

(** [github.com/docker/infrakit/pkg/spi/instance] *)
Module instance.
Record Spec : Type :=
  { Properties : string; Tags : gmap string string; Init : string }.
Record Description : Type := { ID : string; DTags : gmap string string }.
End instance.

(** [github.com/docker/infrakit/pkg/plugin/group/types].  [Size] is an
    unsigned machine integer, [LogicalIDs] a slice: [None] is the nil
    slice, [Some l] a slice that is not nil (of length [0] for [Some []],
    which is what decoding the JSON array [[]] gives). *)
Module types.
Record AllocationMethod : Type :=
  { Size : Z; LogicalIDs : option (list string) }.
Record PluginSpec : Type := { Plugin : string; Properties : string }.
Record Spec : Type :=
  { Instance : PluginSpec; Flavor : PluginSpec;
    Allocation : AllocationMethod }.
End types.

(** The flavor plugin, as far as [validate] uses it. *)
Module flavor.
Record Plugin : Type :=
  { Validate : string → types.AllocationMethod → option error;
    Prepare : string → instance.Spec → types.AllocationMethod →
              result instance.Spec }.
End flavor.

(** Modelled from the spec: the declaration of [Properties], which is in
    [plugin/instance/types] and not in [plugin.go].  Its fields are the
    instance properties of the specification's data model, which are
    also the fields that [CommitGroup] reads.  A slice is an option, so
    that equality of records is [reflect.DeepEqual], which tells the nil
    slice from an empty one. *)
Module instance_types.
Record Properties : Type :=
  { NamePrefix : string; Description : string; MachineType : string;
    Network : string; Tags : option (list string); DiskSizeMb : Z;
    DiskImage : string; DiskType : string;
    Scopes : option (list string); Preemptible : bool;
    TargetPool : string }.

#[global] Instance Properties_eq_dec : EqDecision Properties.
Proof. solve_decision. Defined.
End instance_types.

(** [reflect.DeepEqual] on two [instance_types.Properties]. *)
Definition DeepEqual (a b : instance_types.Properties) : bool :=
  bool_decide (a = b).

(** Modelled from the spec: the declarations of [plugin/gcloud] that
    [plugin.go] uses, the two settings records with the fields that
    [CommitGroup] fills in, and the operations of the cloud driver with
    the arguments that the plugin passes. *)
Module gcloud.
Record MetadataItem : Type := { Key : string; Value : option string }.
Definition Metadata : Type := list MetadataItem.

Record InstanceSettings : Type :=
  { Description : string; MachineType : string; Network : string;
    Tags : option (list string); DiskSizeMb : Z; DiskImage : string;
    DiskType : string; Scopes : option (list string);
    Preemptible : bool; AutoDeleteDisk : bool;
    ReuseExistingDisk : bool; MetaData : Metadata }.

Record InstanceManagerSettings : Type :=
  { TemplateName : string; TargetSize : Z; MDescription : string;
    TargetPool : string; BaseInstanceName : string }.

(** What the list and get calls return ([compute.ManagedInstance] and
    [compute.Instance]). *)
Record ManagedInstance : Type := { Instance : string }.
Record ComputeInstance : Type := { Name : string; Items : Metadata }.

(** One call on the [API] interface. *)
Inductive call : Type :=
| CreateInstanceTemplate (name : string) (s : InstanceSettings)
| CreateInstanceGroupManager (name : string) (s : InstanceManagerSettings)
| SetInstanceTemplate (name templateName : string)
| ResizeInstanceGroupManager (name : string) (targetSize : Z)
| ListInstanceGroupInstances (name : string)
| GetInstance (name : string)
| DeleteInstanceGroupManager (name : string)
| DeleteInstanceTemplate (name : string).

(** An implementation of the interface: the answer to each call may
    depend on all the calls made before it. *)
Module API.
Record t : Type :=
  { CreateInstanceTemplate :
      list call → string → InstanceSettings → option error;
    CreateInstanceGroupManager :
      list call → string → InstanceManagerSettings → option error;
    SetInstanceTemplate : list call → string → string → option error;
    ResizeInstanceGroupManager : list call → string → Z → option error;
    ListInstanceGroupInstances :
      list call → string → result (list ManagedInstance);
    GetInstance : list call → string → result ComputeInstance;
    DeleteInstanceGroupManager : list call → string → option error;
    DeleteInstanceTemplate : list call → string → option error }.
End API.

(** The error, if any, with which [api] answers [c] after [h]. *)
Definition failure (api : API.t) (h : list call) (c : call) : option error :=
  match c with
  | CreateInstanceTemplate n s => API.CreateInstanceTemplate api h n s
  | CreateInstanceGroupManager n s => API.CreateInstanceGroupManager api h n s
  | SetInstanceTemplate n t => API.SetInstanceTemplate api h n t
  | ResizeInstanceGroupManager n z => API.ResizeInstanceGroupManager api h n z
  | ListInstanceGroupInstances n =>
      match API.ListInstanceGroupInstances api h n with
      | Ok _ => None
      | Err e => Some e
      end
  | GetInstance n =>
      match API.GetInstance api h n with
      | Ok _ => None
      | Err e => Some e
      end
  | DeleteInstanceGroupManager n => API.DeleteInstanceGroupManager api h n
  | DeleteInstanceTemplate n => API.DeleteInstanceTemplate api h n
  end.
End gcloud.

(** ** The plugin's data *)

Record settings : Type :=
  { spec : types.Spec;
    groupSpec : group.Spec;
    instanceSpec : instance.Spec;
    instanceProperties : instance_types.Properties;
    currentTemplate : Z;
    createdTemplates : list string }.

(** The registry [p.groups] and the calls made on [p.API] so far. *)
Record state : Type :=
  { groups : gmap group.ID settings;
    history : list gcloud.call }.

(** The state [st] after the calls [cs]. *)
Definition called (st : state) (cs : list gcloud.call) : state :=
  {| groups := groups st; history := history st ++ cs |}.

(** ** Computations that read and write the state and may fail *)

Definition M (A : Type) : Type := state → result A * state.

Definition ret {A} (a : A) : M A := λ st, (Ok a, st).
Definition fail {A} (e : error) : M A := λ st, (Err e, st).
Definition bind {A B} (m : M A) (k : A → M B) : M B :=
  λ st, match m st with
        | (Ok a, st') => k a st'
        | (Err e, st') => (Err e, st')
        end.
Definition lift {A} (r : result A) : M A :=
  match r with Ok a => ret a | Err e => fail e end.
Definition get_groups : M (gmap group.ID settings) := λ st, (Ok (groups st), st).
Definition put_groups (g : gmap group.ID settings) : M unit :=
  λ st, (Ok tt, {| groups := g; history := history st |}).
Definition when (b : bool) (m : M unit) : M unit := if b then m else ret tt.

Declare Scope plugin_scope.
Delimit Scope plugin_scope with plugin.
Notation "'do' x <- m ; k" := (bind m (λ x, k))
  (at level 10, x name, m at level 100, k at level 200) : plugin_scope.
Notation "m ;; k" := (bind m (λ _, k))
  (at level 100, k at level 200, right associativity) : plugin_scope.

(** The same for a computation that only fails. *)
Definition result_bind {A B} (r : result A) (k : A → result B) : result B :=
  match r with Ok a => k a | Err e => Err e end.

Declare Scope result_scope.
Delimit Scope result_scope with result.
Notation "'try' x <- r ; k" := (result_bind r (λ x, k))
  (at level 10, x name, r at level 100, k at level 200) : result_scope.

(** ** The plugin *)

Section Plugin.

(** What the plugin is built from and what it imports:
    [types.ParseProperties], the lookup [p.flavorPlugins],
    [instance_types.ParseProperties], [instance_types.ParseMetadata],
    [gcloud.TagsToMetaData], [gcloud.MetaDataToTags] and the driver
    [p.API]. *)
Variable ParseProperties : group.Spec → result types.Spec.
Variable flavorPlugins : string → result flavor.Plugin.
Variable ParseInstanceProperties : string → result instance_types.Properties.
Variable ParseMetadata : instance.Spec → result (gmap string string).
Variable TagsToMetaData : gmap string string → gcloud.Metadata.
Variable MetaDataToTags : gcloud.Metadata → gmap string string.
Variable API : gcloud.API.t.

(** Calling the driver: the call joins the history, and its error, if
    any, is the outcome. *)
Definition invoke (c : gcloud.call) : M unit :=
  λ st,
    let st' := {| groups := groups st; history := history st ++ [c] |} in
    match gcloud.failure API (history st) c with
    | None => (Ok tt, st')
    | Some err => (Err err, st')
    end.

Definition listInstanceGroupInstances (name : string)
  : M (list gcloud.ManagedInstance) :=
  λ st,
    (gcloud.API.ListInstanceGroupInstances API (history st) name,
     {| groups := groups st;
        history := history st ++ [gcloud.ListInstanceGroupInstances name] |}).

Definition getInstance (name : string) : M gcloud.ComputeInstance :=
  λ st,
    (gcloud.API.GetInstance API (history st) name,
     {| groups := groups st;
        history := history st ++ [gcloud.GetInstance name] |}).

Definition validate (groupSpec : group.Spec) : result settings :=
  (if decide (group.id groupSpec = "") then
     Err "Group ID must not be blank"
   else
     try spec <- ParseProperties groupSpec;
     if bool_decide (types.LogicalIDs (types.Allocation spec) ≠ None) then
       Err "Allocation.LogicalIDs is not supported"
     else if types.Size (types.Allocation spec) <=? 0 then
       Err "Allocation must be > 0"
     else
       match flavorPlugins (types.Plugin (types.Flavor spec)) with
       | Err err =>
           Err ("Failed to find Flavor plugin '"
                +:+ types.Plugin (types.Flavor spec) +:+ "':" +:+ err)
       | Ok flavorPlugin =>
           match flavor.Validate flavorPlugin
                   (types.Properties (types.Flavor spec))
                   (types.Allocation spec) with
           | Some err => Err err
           | None =>
               let rawInstanceProperties :=
                 types.Properties (types.Instance spec) in
               let instanceSpec :=
                 {| instance.Tags := ∅;
                    instance.Properties := rawInstanceProperties;
                    instance.Init := "" |} in
               try instanceSpec <-
                 flavor.Prepare flavorPlugin
                   (types.Properties (types.Flavor spec))
                   instanceSpec (types.Allocation spec);
               try instanceProperties <-
                 ParseInstanceProperties (instance.Properties instanceSpec);
               Ok {| spec := spec;
                     groupSpec := groupSpec;
                     instanceSpec := instanceSpec;
                     instanceProperties := instanceProperties;
                     currentTemplate := 1;
                     createdTemplates := [] |}
           end
       end)%result.

(** The local variables of [CommitGroup] that the comparison with the
    registry sets. *)
Record locals : Type :=
  { settings_ : settings;
    operations : list string;
    createManager : bool;
    createTemplate : bool;
    updateManager : bool;
    resize : bool }.

(** [settings.currentTemplate++] *)
Definition bump (s : settings) : settings :=
  {| spec := spec s; groupSpec := groupSpec s;
     instanceSpec := instanceSpec s;
     instanceProperties := instanceProperties s;
     currentTemplate := int (currentTemplate s + 1);
     createdTemplates := createdTemplates s |}.

(** [settings.createdTemplates = append(settings.createdTemplates,
    templateName)] on the local copy of the settings: the registry keeps
    its slice with the length it had, so that it sees the new name only
    when the copy is stored. *)
Definition record_template (s : settings) (templateName : string) : settings :=
  {| spec := spec s; groupSpec := groupSpec s;
     instanceSpec := instanceSpec s;
     instanceProperties := instanceProperties s;
     currentTemplate := currentTemplate s;
     createdTemplates := createdTemplates s ++ [templateName] |}.

(** [CommitGroup], from the declaration of [operations] to the end of
    the branch on [present]. *)
Definition compare (pretend : bool) (targetSize : Z)
    (newSettings : settings) (stored : option settings) : locals :=
  match stored with
  | None =>
      {| settings_ := newSettings;
         operations := ["Managing " +:+ fmt_d targetSize +:+ " instances"];
         createManager := true;
         createTemplate := true;
         updateManager := false;
         resize := false |}
  | Some settings =>
      let changed :=
        negb (DeepEqual (instanceProperties settings)
                        (instanceProperties newSettings)) in
      let rescaled :=
        negb (types.Size (types.Allocation (spec settings))
              =? types.Size (types.Allocation (spec newSettings))) in
      {| settings_ :=
           if changed && negb pretend then bump settings else settings;
         operations :=
           (if changed then ["Updating instance template"] else [])
           ++ (if rescaled
               then ["Scaling group to " +:+ fmt_d targetSize +:+ " instance."]
               else []);
         createManager := false;
         createTemplate := changed;
         updateManager := false;
         resize := rescaled |}
  end.

(** [CommitGroup], the block under [if !pretend]. *)
Definition apply (name : string) (targetSize : Z) (v : locals) : M settings :=
  (let templateName :=
     name +:+ "-" +:+ fmt_d (currentTemplate (settings_ v)) in
   let settings := record_template (settings_ v) templateName in
   when (createTemplate v)
     (do metadata <- lift (ParseMetadata (instanceSpec settings));
      invoke (gcloud.CreateInstanceTemplate templateName
        {| gcloud.Description :=
             instance_types.Description (instanceProperties settings);
           gcloud.MachineType :=
             instance_types.MachineType (instanceProperties settings);
           gcloud.Network :=
             instance_types.Network (instanceProperties settings);
           gcloud.Tags := instance_types.Tags (instanceProperties settings);
           gcloud.DiskSizeMb :=
             instance_types.DiskSizeMb (instanceProperties settings);
           gcloud.DiskImage :=
             instance_types.DiskImage (instanceProperties settings);
           gcloud.DiskType :=
             instance_types.DiskType (instanceProperties settings);
           gcloud.Scopes := instance_types.Scopes (instanceProperties settings);
           gcloud.Preemptible :=
             instance_types.Preemptible (instanceProperties settings);
           gcloud.AutoDeleteDisk := true;
           gcloud.ReuseExistingDisk := false;
           gcloud.MetaData := TagsToMetaData metadata |}));;
   when (createManager v)
     (invoke (gcloud.CreateInstanceGroupManager name
        {| gcloud.TemplateName :=
             name +:+ "-" +:+ fmt_d (currentTemplate settings);
           gcloud.TargetSize := targetSize;
           gcloud.MDescription :=
             instance_types.Description (instanceProperties settings);
           gcloud.TargetPool :=
             instance_types.TargetPool (instanceProperties settings);
           gcloud.BaseInstanceName :=
             instance_types.NamePrefix (instanceProperties settings) |}));;
   when (updateManager v)
     (invoke (gcloud.SetInstanceTemplate name templateName));;
   when (resize v)
     (invoke (gcloud.ResizeInstanceGroupManager name targetSize));;
   ret settings)%plugin.

(** The metadata that the block under [if !pretend] reads, if it reads
    any. *)
Definition metadata_read (v : locals) : result (gmap string string) :=
  if createTemplate v then ParseMetadata (instanceSpec (settings_ v))
  else Ok ∅.

(** The calls that the block makes, in order, when [ParseMetadata]
    gives [metadata] and no call fails. *)
Definition planned_calls (name : string) (targetSize : Z) (v : locals)
    (metadata : gmap string string) : list gcloud.call :=
  let templateName :=
    name +:+ "-" +:+ fmt_d (currentTemplate (settings_ v)) in
  let properties := instanceProperties (settings_ v) in
  (if createTemplate v then
     [gcloud.CreateInstanceTemplate templateName
        {| gcloud.Description := instance_types.Description properties;
           gcloud.MachineType := instance_types.MachineType properties;
           gcloud.Network := instance_types.Network properties;
           gcloud.Tags := instance_types.Tags properties;
           gcloud.DiskSizeMb := instance_types.DiskSizeMb properties;
           gcloud.DiskImage := instance_types.DiskImage properties;
           gcloud.DiskType := instance_types.DiskType properties;
           gcloud.Scopes := instance_types.Scopes properties;
           gcloud.Preemptible := instance_types.Preemptible properties;
           gcloud.AutoDeleteDisk := true;
           gcloud.ReuseExistingDisk := false;
           gcloud.MetaData := TagsToMetaData metadata |}]
   else [])
  ++ (if createManager v then
        [gcloud.CreateInstanceGroupManager name
           {| gcloud.TemplateName := templateName;
              gcloud.TargetSize := targetSize;
              gcloud.MDescription := instance_types.Description properties;
              gcloud.TargetPool := instance_types.TargetPool properties;
              gcloud.BaseInstanceName :=
                instance_types.NamePrefix properties |}]
      else [])
  ++ (if updateManager v then
        [gcloud.SetInstanceTemplate name templateName]
      else [])
  ++ (if resize v then
        [gcloud.ResizeInstanceGroupManager name targetSize]
      else []).

Definition CommitGroup (config : group.Spec) (pretend : bool) : M string :=
  (do newSettings <- lift (validate config);
   let name := group.id config in
   let targetSize :=
     int64 (types.Size (types.Allocation (spec newSettings))) in
   do registry <- get_groups;
   let v := compare pretend targetSize newSettings
              (registry !! group.id config) in
   do settings <-
     (if negb pretend then apply name targetSize v else ret (settings_ v));
   put_groups (<[group.id config := settings]> registry);;
   ret (Join (operations v) newline))%plugin.

Definition not_watched (id : group.ID) : error :=
  "This group is not being watched: '" +:+ id.

Definition FreeGroup (id : group.ID) : M unit :=
  (do registry <- get_groups;
   match registry !! id with
   | None => fail (not_watched id)
   | Some _ => put_groups (delete id registry)
   end)%plugin.

Definition last (url : string) : string :=
  let parts := Split url "/" in
  default "" (list.last parts).

(** The loop of [DescribeGroup] over the members of the group. *)
Fixpoint describe (members : list gcloud.ManagedInstance)
    (instances : list instance.Description) : M (list instance.Description) :=
  (match members with
   | [] => ret instances
   | grpInst :: rest =>
       let name := last (gcloud.Instance grpInst) in
       do inst <- getInstance name;
       describe rest
         (instances ++
            [{| instance.ID := gcloud.Name inst;
                instance.DTags := MetaDataToTags (gcloud.Items inst) |}])
   end)%plugin.

Definition DescribeGroup (id : group.ID)
  : M (group.Description instance.Description) :=
  (do registry <- get_groups;
   match registry !! id with
   | None => fail (not_watched id)
   | Some currentSettings =>
       let name := id in
       do instanceGroupInstances <- listInstanceGroupInstances name;
       do instances <- describe instanceGroupInstances [];
       ret {| group.Converged :=
                Z.of_nat (length instanceGroupInstances)
                =? int (types.Size (types.Allocation (spec currentSettings)));
              group.Instances := instances |}
   end)%plugin.

(** The loop of [DestroyGroup] over the created templates. *)
Fixpoint delete_templates (names : list string) : M unit :=
  (match names with
   | [] => ret tt
   | createdTemplate :: rest =>
       invoke (gcloud.DeleteInstanceTemplate createdTemplate);;
       delete_templates rest
   end)%plugin.

Definition DestroyGroup (id : group.ID) : M unit :=
  (do registry <- get_groups;
   match registry !! id with
   | None => fail (not_watched id)
   | Some currentSettings =>
       let name := id in
       invoke (gcloud.DeleteInstanceGroupManager name);;
       delete_templates (createdTemplates currentSettings);;
       do registry <- get_groups;
       put_groups (delete id registry)
   end)%plugin.

(** [InspectGroups]: the declared spec of every tracked group; the order
    of a Go map iteration is not fixed, so the result is a list up to
    permutation, here in the order of [map_to_list]. *)
Definition InspectGroups : M (list group.Spec) :=
  (do registry <- get_groups;
   ret (groupSpec ∘ snd <$> map_to_list registry))%plugin.

End Plugin.

(** ** Vocabulary of the statements *)

Section Runs.

Variable API : gcloud.API.t.

(** A list of calls made one after the other, stopping at the first
    that fails. *)
Fixpoint run_calls (cs : list gcloud.call) : M unit :=
  (match cs with
   | [] => ret tt
   | c :: rest => invoke API c;; run_calls rest
   end)%plugin.

(** The position and the error of the first call of [cs] that the
    driver refuses when [cs] is made after [h]. *)
Fixpoint first_failure (h : list gcloud.call) (cs : list gcloud.call)
  : option (nat * error) :=
  match cs with
  | [] => None
  | c :: rest =>
      match gcloud.failure API h c with
      | Some e => Some (0%nat, e)
      | None =>
          match first_failure (h ++ [c]) rest with
          | Some (k, e) => Some (S k, e)
          | None => None
          end
      end
  end.

End Runs.

Definition is_SetInstanceTemplate (c : gcloud.call) : bool :=
  match c with gcloud.SetInstanceTemplate _ _ => true | _ => false end.

Definition is_delete (c : gcloud.call) : bool :=
  match c with
  | gcloud.DeleteInstanceGroupManager _ | gcloud.DeleteInstanceTemplate _ => true
  | _ => false
  end.

(** The calls of the destruction of a group with settings [s], in order. *)
Definition destroy_calls (id : group.ID) (s : settings) : list gcloud.call :=
  gcloud.DeleteInstanceGroupManager id
  :: (gcloud.DeleteInstanceTemplate <$> createdTemplates s).

(** What a call does to the cloud, without the settings it carries. *)
Inductive operation : Type :=
| CreateTemplate (name : string)
| CreateManager (name : string) (size : Z)
| PointManager (name templateName : string)
| ResizeManager (name : string) (size : Z)
| ListMembers (name : string)
| GetMember (name : string)
| DeleteManager (name : string)
| DeleteTemplate (name : string).

Definition operation_of (c : gcloud.call) : operation :=
  match c with
  | gcloud.CreateInstanceTemplate n _ => CreateTemplate n
  | gcloud.CreateInstanceGroupManager n s => CreateManager n (gcloud.TargetSize s)
  | gcloud.SetInstanceTemplate n t => PointManager n t
  | gcloud.ResizeInstanceGroupManager n z => ResizeManager n z
  | gcloud.ListInstanceGroupInstances n => ListMembers n
  | gcloud.GetInstance n => GetMember n
  | gcloud.DeleteInstanceGroupManager n => DeleteManager n
  | gcloud.DeleteInstanceTemplate n => DeleteTemplate n
  end.

(** The name of the template of version [version] of group [id]. *)
Definition template_name (id : group.ID) (version : Z) : string :=
  id +:+ "-" +:+ fmt_d version.

(** Equality of instance properties as the specification's data model
    words it: every field by value, the two collections without regard
    to the order of their elements, a nil collection being an empty
    one. *)
Definition same_properties (a b : instance_types.Properties) : bool :=
  bool_decide (instance_types.NamePrefix a = instance_types.NamePrefix b)
  && bool_decide (instance_types.Description a = instance_types.Description b)
  && bool_decide (instance_types.MachineType a = instance_types.MachineType b)
  && bool_decide (instance_types.Network a = instance_types.Network b)
  && bool_decide (instance_types.DiskSizeMb a = instance_types.DiskSizeMb b)
  && bool_decide (instance_types.DiskImage a = instance_types.DiskImage b)
  && bool_decide (instance_types.DiskType a = instance_types.DiskType b)
  && bool_decide (instance_types.Preemptible a = instance_types.Preemptible b)
  && bool_decide (instance_types.TargetPool a = instance_types.TargetPool b)
  && bool_decide (default [] (instance_types.Tags a)
                  ≡ₚ default [] (instance_types.Tags b))
  && bool_decide (default [] (instance_types.Scopes a)
                  ≡ₚ default [] (instance_types.Scopes b)).

(** The state table of the commit, as the specification words it: the
    version that a commit of [new] leaves for a group whose registry entry
    is [stored], and the operations it issues; instance properties are
    compared by the equality of the data model and sizes are plain
    integers. *)
Definition table_version (stored : option settings) (new : settings) : Z :=
  match stored with
  | None => 1
  | Some old =>
      if same_properties (instanceProperties old) (instanceProperties new)
      then currentTemplate old
      else currentTemplate old + 1
  end.

Definition table_operations (id : group.ID) (stored : option settings)
    (new : settings) : list operation :=
  let size := types.Size (types.Allocation (spec new)) in
  match stored with
  | None =>
      [CreateTemplate (template_name id 1); CreateManager id size]
  | Some old =>
      (if same_properties (instanceProperties old) (instanceProperties new)
       then []
       else [CreateTemplate (template_name id (currentTemplate old + 1))])
      ++ (if decide (types.Size (types.Allocation (spec old)) = size) then []
          else [ResizeManager id size])
  end.

(** The same table as the code has it: instance properties are compared
    by [reflect.DeepEqual], the driver is given the size converted to
    [int64], and the version is a Go [int]. *)
Definition issued_version (stored : option settings) (new : settings) : Z :=
  match stored with
  | None => 1
  | Some old =>
      if DeepEqual (instanceProperties old) (instanceProperties new)
      then currentTemplate old
      else int (currentTemplate old + 1)
  end.

Definition issued_operations (id : group.ID) (stored : option settings)
    (new : settings) : list operation :=
  let size := types.Size (types.Allocation (spec new)) in
  match stored with
  | None =>
      [CreateTemplate (template_name id 1); CreateManager id (int64 size)]
  | Some old =>
      (if DeepEqual (instanceProperties old) (instanceProperties new) then []
       else [CreateTemplate
               (template_name id (int (currentTemplate old + 1)))])
      ++ (if decide (types.Size (types.Allocation (spec old)) = size) then []
          else [ResizeManager id (int64 size)])
  end.

(** ** Stand-ins for the collaborators

    A decoder for a handful of group properties, one flavor plugin, and
    drivers that accept every call or refuse some of them; the concrete
    instances of the theorems below are taken on these. *)

Module Doubles.

Definition mkSpec (size : Z) (ids : option (list string))
    (flavorName machine : string) : types.Spec :=
  {| types.Instance :=
       {| types.Plugin := "instance-gcp"; types.Properties := machine |};
     types.Flavor :=
       {| types.Plugin := flavorName; types.Properties := "" |};
     types.Allocation :=
       {| types.Size := size; types.LogicalIDs := ids |} |}.

Definition ParseProperties (g : group.Spec) : result types.Spec :=
  let p := group.Properties g in
  if decide (p = "3 small") then Ok (mkSpec 3 None "vanilla" "small")
  else if decide (p = "5 small") then Ok (mkSpec 5 None "vanilla" "small")
  else if decide (p = "3 large") then Ok (mkSpec 3 None "vanilla" "large")
  else if decide (p = "5 large") then Ok (mkSpec 5 None "vanilla" "large")
  else if decide (p = "0 small") then Ok (mkSpec 0 None "vanilla" "small")
  else if decide (p = "3 small []") then
    Ok (mkSpec 3 (Some []) "vanilla" "small")
  else if decide (p = "3 small [a]") then
    Ok (mkSpec 3 (Some ["a"]) "vanilla" "small")
  else if decide (p = "3 small unknown") then
    Ok (mkSpec 3 None "unknown" "small")
  else if decide (p = "3 small strict") then
    Ok (mkSpec 3 None "strict" "small")
  else Err "invalid properties".

Definition vanilla : flavor.Plugin :=
  {| flavor.Validate := λ _ _, None;
     flavor.Prepare := λ _ instanceSpec _, Ok instanceSpec |}.

Definition strict : flavor.Plugin :=
  {| flavor.Validate := λ _ _, Some "flavor says no";
     flavor.Prepare := λ _ instanceSpec _, Ok instanceSpec |}.

Definition flavorPlugins (name : string) : result flavor.Plugin :=
  if decide (name = "vanilla") then Ok vanilla
  else if decide (name = "strict") then Ok strict
  else Err "plugin not found".

Definition properties_of (machine : string) : instance_types.Properties :=
  {| instance_types.NamePrefix := "instance";
     instance_types.Description := "";
     instance_types.MachineType := machine;
     instance_types.Network := "default";
     instance_types.Tags := None;
     instance_types.DiskSizeMb := 10;
     instance_types.DiskImage := "";
     instance_types.DiskType := "";
     instance_types.Scopes := None;
     instance_types.Preemptible := false;
     instance_types.TargetPool := "" |}.

Definition ParseInstanceProperties (raw : string)
  : result instance_types.Properties :=
  Ok (properties_of raw).

Definition ParseMetadata (s : instance.Spec) : result (gmap string string) :=
  Ok (instance.Tags s).

Definition TagsToMetaData (tags : gmap string string) : gcloud.Metadata :=
  (λ kv, {| gcloud.Key := kv.1; gcloud.Value := Some kv.2 |})
    <$> map_to_list tags.

Definition MetaDataToTags (items : gcloud.Metadata) : gmap string string :=
  list_to_map
    ((λ i, (gcloud.Key i, default "" (gcloud.Value i))) <$> items).

(** A driver that refuses, with [err], the calls that [refuses] picks,
    and that reports [members] as the members of every group. *)
Definition driver (refuses : gcloud.call → bool) (err : error)
    (members : list string) : gcloud.API.t :=
  let answer c := if refuses c then Some err else None in
  {| gcloud.API.CreateInstanceTemplate :=
       λ _ n s, answer (gcloud.CreateInstanceTemplate n s);
     gcloud.API.CreateInstanceGroupManager :=
       λ _ n s, answer (gcloud.CreateInstanceGroupManager n s);
     gcloud.API.SetInstanceTemplate :=
       λ _ n t, answer (gcloud.SetInstanceTemplate n t);
     gcloud.API.ResizeInstanceGroupManager :=
       λ _ n z, answer (gcloud.ResizeInstanceGroupManager n z);
     gcloud.API.ListInstanceGroupInstances :=
       λ _ n,
         if refuses (gcloud.ListInstanceGroupInstances n) then Err err
         else Ok ((λ m, {| gcloud.Instance := m |}) <$> members);
     gcloud.API.GetInstance :=
       λ _ n,
         if refuses (gcloud.GetInstance n) then Err err
         else Ok {| gcloud.Name := n; gcloud.Items := [] |};
     gcloud.API.DeleteInstanceGroupManager :=
       λ _ n, answer (gcloud.DeleteInstanceGroupManager n);
     gcloud.API.DeleteInstanceTemplate :=
       λ _ n, answer (gcloud.DeleteInstanceTemplate n) |}.

Definition obliging : gcloud.API.t := driver (λ _, false) "" [].

Definition commit (api : gcloud.API.t) : group.Spec → bool → M string :=
  CommitGroup ParseProperties flavorPlugins ParseInstanceProperties
    ParseMetadata TagsToMetaData api.

Definition check : group.Spec → result settings :=
  validate ParseProperties flavorPlugins ParseInstanceProperties.

Definition g (properties : string) : group.Spec :=
  {| group.id := "g"; group.Properties := properties |}.

Definition nothing : state := {| groups := ∅; history := [] |}.

(** The settings that validation gives for [g properties] when
    [properties] asks for [size] instances of type [machine]. *)
Definition settings_of (properties : string) (size : Z) (machine : string)
  : settings :=
  {| spec := mkSpec size None "vanilla" machine;
     groupSpec := g properties;
     instanceSpec :=
       {| instance.Properties := machine; instance.Tags := ∅;
          instance.Init := "" |};
     instanceProperties := properties_of machine;
     currentTemplate := 1;
     createdTemplates := [] |}.

(** The state after a first commit of [g] with three small instances,
    and the two calls of that commit. *)
Definition committed : state := (commit obliging (g "3 small") false nothing).2.

Definition first_template : gcloud.call :=
  gcloud.CreateInstanceTemplate "g-1"
    {| gcloud.Description := ""; gcloud.MachineType := "small";
       gcloud.Network := "default"; gcloud.Tags := None;
       gcloud.DiskSizeMb := 10; gcloud.DiskImage := "";
       gcloud.DiskType := ""; gcloud.Scopes := None;
       gcloud.Preemptible := false; gcloud.AutoDeleteDisk := true;
       gcloud.ReuseExistingDisk := false; gcloud.MetaData := [] |}.

Definition first_manager : gcloud.call :=
  gcloud.CreateInstanceGroupManager "g"
    {| gcloud.TemplateName := "g-1"; gcloud.TargetSize := 3;
       gcloud.MDescription := ""; gcloud.TargetPool := "";
       gcloud.BaseInstanceName := "instance" |}.

(** The state after a second commit, of large instances. *)
Definition updated : state := (commit obliging (g "3 large") false committed).2.

Definition updated_settings : settings :=
  record_template
    (bump (record_template (settings_of "3 small" 3 "small") "g-1")) "g-2".

(** The state after a dry run on the empty registry. *)
Definition rehearsed : state := (commit obliging (g "3 small") true nothing).2.

(** Drivers that refuse to create a manager, to delete the template
    [g-2], and one that lists three members. *)
Definition no_manager : gcloud.API.t :=
  driver (λ c, match c with
               | gcloud.CreateInstanceGroupManager _ _ => true
               | _ => false
               end) "quota exceeded" [].

Definition keeps_second_template : gcloud.API.t :=
  driver (λ c, match c with
               | gcloud.DeleteInstanceTemplate n => String.eqb n "g-2"
               | _ => false
               end) "template in use" [].

Definition three_members : gcloud.API.t :=
  driver (λ _, false) ""
    ["zones/z/instances/g-a"; "zones/z/instances/g-b";
     "zones/z/instances/g-c"].

End Doubles.

(** ** The registry as the operations keep it *)

(** An entry of the registry as a commit leaves it: stored under the ID
    of its own declared spec, which is not blank, for an allocation of a
    positive size and without logical IDs. *)
Definition entry_ok (id : group.ID) (s : settings) : Prop :=
  group.id (groupSpec s) = id
  ∧ id ≠ ""
  ∧ 0 < types.Size (types.Allocation (spec s))
  ∧ types.LogicalIDs (types.Allocation (spec s)) = None.

Definition registry_ok (st : state) : Prop :=
  map_Forall entry_ok (groups st).

(** The names under which [DescribeGroup] fetches the members of a
    group, and the calls it makes when none fails. *)
Definition member_names (members : list gcloud.ManagedInstance) : list string :=
  (λ grpInst, last (gcloud.Instance grpInst)) <$> members.

Definition describe_calls (id : group.ID)
    (members : list gcloud.ManagedInstance) : list gcloud.call :=
  gcloud.ListInstanceGroupInstances id
  :: (gcloud.GetInstance <$> member_names members).

(** The descriptions that [DescribeGroup] collects from the answers of
    the driver to its [GetInstance] calls, made after the calls [h], up
    to the first that fails. *)
Fixpoint fetched (MetaDataToTags : gcloud.Metadata → gmap string string)
    (API : gcloud.API.t) (h : list gcloud.call) (names : list string)
  : list instance.Description :=
  match names with
  | [] => []
  | name :: rest =>
      match gcloud.API.GetInstance API h name with
      | Ok inst =>
          {| instance.ID := gcloud.Name inst;
             instance.DTags := MetaDataToTags (gcloud.Items inst) |}
          :: fetched MetaDataToTags API (h ++ [gcloud.GetInstance name]) rest
      | Err _ => []
      end
  end.

(** Whether the character [c] occurs in [s]. *)
Fixpoint occurs (c : ascii) (s : string) : bool :=
  match s with
  | EmptyString => false
  | String c' rest => Ascii.eqb c' c || occurs c rest
  end.

(** ** The instance plugin

    A shallow embedding of [plugin/instance/plugin.go]. *)

(** The declarations of [plugin/instance/gcloud] that the instance plugin
    uses: the settings record with the fields that [Provision] fills in
    and the three operations of the driver that the plugin calls. *)
Module instance_gcloud.
Record InstanceSettings : Type :=
  { Description : string; MachineType : string; Network : string;
    Tags : option (list string); DiskSizeMb : Z;
    Scopes : option (list string); MetaData : gcloud.Metadata }.

Inductive call : Type :=
| CreateInstance (name : string) (s : InstanceSettings)
| DeleteInstance (name : string)
| ListInstances.

Module GCloud.
Record t : Type :=
  { CreateInstance : list call → string → InstanceSettings → option error;
    DeleteInstance : list call → string → option error;
    ListInstances : list call → result (list gcloud.ComputeInstance) }.
End GCloud.
End instance_gcloud.

Module instance_plugin.

Record instanceProperties : Type :=
  { NamePrefix : string;
    Description : string;
    MachineType : string;
    Network : string;
    DiskSizeMb : Z;
    Tags : option (list string);
    Scopes : option (list string) }.

(** The calls made on the driver so far, and how many numbers have been
    drawn from the random generator. *)
Record world : Type :=
  { calls : list instance_gcloud.call;
    draws : nat }.

Definition after (w : world) (c : instance_gcloud.call) : world :=
  {| calls := calls w ++ [c]; draws := draws w |}.

Section Plugin.

(** [json.Unmarshal] into a zero [instanceProperties], the numbers that
    [rand.Int63] gives one after the other, the two conversions of the
    driver's package and the field [p.API], whose answer may depend on
    the calls made so far. *)
Variable Unmarshal : string → result instanceProperties.
Variable Int63 : nat → Z.
Variable TagsToMetaData : gmap string string → gcloud.Metadata.
Variable MetaDataToTags : gcloud.Metadata → gmap string string.
Variable API : list instance_gcloud.call → result instance_gcloud.GCloud.t.

Definition parseProperties (properties : string) : result instanceProperties :=
  match Unmarshal properties with
  | Err err => Err err
  | Ok p =>
      let p :=
        if decide (NamePrefix p = "") then
          {| NamePrefix := "instance"; Description := Description p;
             MachineType := MachineType p; Network := Network p;
             DiskSizeMb := DiskSizeMb p; Tags := Tags p;
             Scopes := Scopes p |}
        else p in
      let p :=
        if DiskSizeMb p =? 0 then
          {| NamePrefix := NamePrefix p; Description := Description p;
             MachineType := MachineType p; Network := Network p;
             DiskSizeMb := 10; Tags := Tags p; Scopes := Scopes p |}
        else p in
      Ok p
  end.

Definition Validate (req : string) : option error :=
  match parseProperties req with
  | Err err => Some err
  | Ok instanceProperties =>
      let missingProperties := [] in
      let missingProperties :=
        if decide (MachineType instanceProperties = "")
        then missingProperties ++ ["MachineType"] else missingProperties in
      let missingProperties :=
        if decide (Network instanceProperties = "")
        then missingProperties ++ ["Network"] else missingProperties in
      match length missingProperties with
      | O => None
      | _ => Some ("Missing: " +:+ Join missingProperties ", ")
      end
  end.

(** The loop of [Provision] that copies the tags of the spec into a new
    map. *)
Definition copy_tags (tags : gmap string string) : gmap string string :=
  map_fold (λ k v copy, <[k := v]> copy) ∅ tags.

Definition Provision (spec : instance.Spec) (w : world)
  : result string * world :=
  match parseProperties (instance.Properties spec) with
  | Err err => (Err err, w)
  | Ok properties =>
      let name :=
        NamePrefix properties +:+ "-" +:+ fmt_d (Int63 (draws w)) in
      let w := {| calls := calls w; draws := S (draws w) |} in
      let id := name in
      let tags := copy_tags (instance.Tags spec) in
      let tags :=
        if decide (instance.Init spec = "") then tags
        else <["startup-script" := instance.Init spec]> tags in
      match API (calls w) with
      | Err err => (Err err, w)
      | Ok api =>
          let settings :=
            {| instance_gcloud.Description := Description properties;
               instance_gcloud.MachineType := MachineType properties;
               instance_gcloud.Network := Network properties;
               instance_gcloud.Tags := Tags properties;
               instance_gcloud.DiskSizeMb := DiskSizeMb properties;
               instance_gcloud.Scopes := Scopes properties;
               instance_gcloud.MetaData := TagsToMetaData tags |} in
          match instance_gcloud.GCloud.CreateInstance api (calls w)
                  name settings with
          | Some err =>
              (Err err, after w (instance_gcloud.CreateInstance name settings))
          | None =>
              (Ok id, after w (instance_gcloud.CreateInstance name settings))
          end
      end
  end.

Definition Destroy (id : string) (w : world) : option error * world :=
  match API (calls w) with
  | Err err => (Some err, w)
  | Ok api =>
      (instance_gcloud.GCloud.DeleteInstance api (calls w) id,
       after w (instance_gcloud.DeleteInstance id))
  end.

(** The inner loop of [DescribeInstances]: reading a missing key of a Go
    map gives the empty string. *)
Definition matches (tags instTags : gmap string string) : bool :=
  forallb (λ kv, bool_decide (default "" (instTags !! kv.1) = kv.2))
    (map_to_list tags).

(** The outer loop of [DescribeInstances]. *)
Fixpoint scan (tags : gmap string string)
    (instances : list gcloud.ComputeInstance) : list instance.Description :=
  match instances with
  | [] => []
  | inst :: rest =>
      let instTags := MetaDataToTags (gcloud.Items inst) in
      if matches tags instTags then
        {| instance.ID := gcloud.Name inst; instance.DTags := instTags |}
        :: scan tags rest
      else scan tags rest
  end.

Definition DescribeInstances (tags : gmap string string) (w : world)
  : result (list instance.Description) * world :=
  match API (calls w) with
  | Err err => (Err err, w)
  | Ok api =>
      match instance_gcloud.GCloud.ListInstances api (calls w) with
      | Err err => (Err err, after w instance_gcloud.ListInstances)
      | Ok instances =>
          (Ok (scan tags instances), after w instance_gcloud.ListInstances)
      end
  end.

End Plugin.
End instance_plugin.

(** ** Stand-ins for the collaborators of the instance plugin *)

Module InstanceDoubles.

Definition properties (prefix machine network : string) (disk : Z)
  : instance_plugin.instanceProperties :=
  {| instance_plugin.NamePrefix := prefix;
     instance_plugin.Description := "";
     instance_plugin.MachineType := machine;
     instance_plugin.Network := network;
     instance_plugin.DiskSizeMb := disk;
     instance_plugin.Tags := None;
     instance_plugin.Scopes := None |}.

Definition Unmarshal (raw : string) : result instance_plugin.instanceProperties :=
  if decide (raw = "{}") then Ok (properties "" "" "" 0)
  else if decide (raw = "small") then Ok (properties "" "small" "default" 0)
  else if decide (raw = "web small") then
    Ok (properties "web" "small" "default" 20)
  else if decide (raw = "no network") then Ok (properties "" "small" "" 0)
  else Err "unexpected end of JSON input".

Definition Int63 (n : nat) : Z := 4037200794235010051 + Z.of_nat n.

Definition TagsToMetaData : gmap string string → gcloud.Metadata :=
  Doubles.TagsToMetaData.

Definition MetaDataToTags : gcloud.Metadata → gmap string string :=
  Doubles.MetaDataToTags.

Definition item (k v : string) : gcloud.MetadataItem :=
  {| gcloud.Key := k; gcloud.Value := Some v |}.

(** Three instances, two of them of the group [g]. *)
Definition fleet : list gcloud.ComputeInstance :=
  [{| gcloud.Name := "web-1"; gcloud.Items := [item "group" "g"] |};
   {| gcloud.Name := "db-1"; gcloud.Items := [item "group" "h"] |};
   {| gcloud.Name := "web-2";
      gcloud.Items := [item "group" "g"; item "tier" "front"] |}].

Definition cloud : instance_gcloud.GCloud.t :=
  {| instance_gcloud.GCloud.CreateInstance := λ _ _ _, None;
     instance_gcloud.GCloud.DeleteInstance := λ _ _, None;
     instance_gcloud.GCloud.ListInstances := λ _, Ok fleet |}.

Definition full_cloud : instance_gcloud.GCloud.t :=
  {| instance_gcloud.GCloud.CreateInstance := λ _ _ _, Some "quota exceeded";
     instance_gcloud.GCloud.DeleteInstance := λ _ _, None;
     instance_gcloud.GCloud.ListInstances := λ _, Ok fleet |}.

Definition API (_ : list instance_gcloud.call)
  : result instance_gcloud.GCloud.t := Ok cloud.

Definition full_API (_ : list instance_gcloud.call)
  : result instance_gcloud.GCloud.t := Ok full_cloud.

Definition fresh : instance_plugin.world :=
  {| instance_plugin.calls := []; instance_plugin.draws := 0 |}.

Definition boot : instance.Spec :=
  {| instance.Properties := "web small";
     instance.Tags := {["group" := "g"; "startup-script" := "echo old"]};
     instance.Init := "echo new" |}.

Definition parse : string → result instance_plugin.instanceProperties :=
  instance_plugin.parseProperties Unmarshal.

Definition provision
  : instance.Spec → instance_plugin.world → result string * instance_plugin.world :=
  instance_plugin.Provision Unmarshal Int63 TagsToMetaData API.

Definition describe_instances
  : gmap string string → instance_plugin.world →
    result (list instance.Description) * instance_plugin.world :=
  instance_plugin.DescribeInstances MetaDataToTags API.

(** The names of the instances in the result of a description. *)
Definition names_of (r : result (list instance.Description)) : list string :=
  match r with
  | Ok ds => instance.ID <$> ds
  | Err _ => []
  end.

End InstanceDoubles.

(** ** Stand-ins at the edges of the state table *)

Module TableDoubles.

(** Instance properties with the given tags. *)
Definition tagged (tags : list string) : instance_types.Properties :=
  {| instance_types.NamePrefix := "instance";
     instance_types.Description := "";
     instance_types.MachineType := "small";
     instance_types.Network := "default";
     instance_types.Tags := Some tags;
     instance_types.DiskSizeMb := 10;
     instance_types.DiskImage := "";
     instance_types.DiskType := "";
     instance_types.Scopes := None;
     instance_types.Preemptible := false;
     instance_types.TargetPool := "" |}.

(** A decoder that also knows a group of 2^63 instances and two groups
    whose instances carry the same two tags in the two orders. *)
Definition ParseProperties (g : group.Spec) : result types.Spec :=
  let p := group.Properties g in
  if decide (p = "huge") then
    Ok (Doubles.mkSpec (2 ^ 63) None "vanilla" "small")
  else if decide (p = "3 ab") then Ok (Doubles.mkSpec 3 None "vanilla" "ab")
  else if decide (p = "3 ba") then Ok (Doubles.mkSpec 3 None "vanilla" "ba")
  else Doubles.ParseProperties g.

Definition ParseInstanceProperties (raw : string)
  : result instance_types.Properties :=
  if decide (raw = "ab") then Ok (tagged ["a"; "b"])
  else if decide (raw = "ba") then Ok (tagged ["b"; "a"])
  else Doubles.ParseInstanceProperties raw.

Definition commit : group.Spec → bool → M string :=
  CommitGroup ParseProperties Doubles.flavorPlugins ParseInstanceProperties
    Doubles.ParseMetadata Doubles.TagsToMetaData Doubles.obliging.

Definition check : group.Spec → result settings :=
  validate ParseProperties Doubles.flavorPlugins ParseInstanceProperties.

(** The settings that validation gives for the three groups. *)
Definition huge : settings :=
  Doubles.settings_of "huge" (2 ^ 63) "small".

Definition tags_of (properties raw : string) (tags : list string) : settings :=
  {| spec := Doubles.mkSpec 3 None "vanilla" raw;
     groupSpec := Doubles.g properties;
     instanceSpec :=
       {| instance.Properties := raw; instance.Tags := ∅;
          instance.Init := "" |};
     instanceProperties := tagged tags;
     currentTemplate := 1;
     createdTemplates := [] |}.

(** The state after the first commit of the group with the tags in the
    order [a], [b]. *)
Definition with_ab : state :=
  (commit (Doubles.g "3 ab") false Doubles.nothing).2.

End TableDoubles.

(** ** More stand-ins for the group plugin *)

Module MoreDoubles.

Definition h (properties : string) : group.Spec :=
  {| group.id := "h"; group.Properties := properties |}.

(** The state with two groups, [g] of three small instances and [h] of
    five large ones. *)
Definition both : state :=
  (Doubles.commit Doubles.obliging (h "5 large") false Doubles.committed).2.

(** A driver that refuses the first manager it is asked for: it has no
    room for one before two calls were made. *)
Definition flaky : gcloud.API.t :=
  {| gcloud.API.CreateInstanceTemplate := λ _ _ _, None;
     gcloud.API.CreateInstanceGroupManager :=
       λ calls _ _,
         if bool_decide (length calls < 2)%nat then Some "quota exceeded"
         else None;
     gcloud.API.SetInstanceTemplate := λ _ _ _, None;
     gcloud.API.ResizeInstanceGroupManager := λ _ _ _, None;
     gcloud.API.ListInstanceGroupInstances := λ _ _, Ok [];
     gcloud.API.GetInstance :=
       λ _ n, Ok {| gcloud.Name := n; gcloud.Items := [] |};
     gcloud.API.DeleteInstanceGroupManager := λ _ _, None;
     gcloud.API.DeleteInstanceTemplate := λ _ _, None |}.

(** A driver that refuses to delete the template [g-2] the first time
    it is asked to. *)
Definition busy_once : gcloud.API.t :=
  {| gcloud.API.CreateInstanceTemplate := λ _ _ _, None;
     gcloud.API.CreateInstanceGroupManager := λ _ _ _, None;
     gcloud.API.SetInstanceTemplate := λ _ _ _, None;
     gcloud.API.ResizeInstanceGroupManager := λ _ _ _, None;
     gcloud.API.ListInstanceGroupInstances := λ _ _, Ok [];
     gcloud.API.GetInstance :=
       λ _ n, Ok {| gcloud.Name := n; gcloud.Items := [] |};
     gcloud.API.DeleteInstanceGroupManager := λ _ _, None;
     gcloud.API.DeleteInstanceTemplate :=
       λ calls n,
         if String.eqb n "g-2"
            && negb (existsb
                       (λ c, match c with
                             | gcloud.DeleteInstanceTemplate n' =>
                                 String.eqb n' "g-2"
                             | _ => false
                             end) calls)
         then Some "template in use" else None |}.

(** A driver that lists three members and has lost the second. *)
Definition second_lost : gcloud.API.t :=
  Doubles.driver
    (λ c, match c with
          | gcloud.GetInstance n => String.eqb n "g-b"
          | _ => false
          end) "instance not found"
    ["zones/z/instances/g-a"; "zones/z/instances/g-b";
     "zones/z/instances/g-c"].

Definition three : list gcloud.ManagedInstance :=
  [{| gcloud.Instance := "zones/z/instances/g-a" |};
   {| gcloud.Instance := "zones/z/instances/g-b" |};
   {| gcloud.Instance := "zones/z/instances/g-c" |}].

Definition described (name : string) : instance.Description :=
  {| instance.ID := name; instance.DTags := ∅ |}.

(** The settings stored for [g] after its first commit. *)
Definition stored : settings :=
  record_template (Doubles.settings_of "3 small" 3 "small") "g-1".

End MoreDoubles.

Example commit_first :
  Doubles.commit Doubles.obliging (Doubles.g "3 small") false Doubles.nothing
  = (Ok "Managing 3 instances", Doubles.committed)
  ∧ (createdTemplates <$> groups Doubles.committed !! "g") = Some ["g-1"]
  ∧ length (history Doubles.committed) = 2%nat.
Proof. vm_compute. auto. Qed.

(** ** Running a list of calls *)

Section RunTheory.

Variable API : gcloud.API.t.

Lemma called_nil st : called st [] = st.
Proof. destruct st; unfold called; simpl. by rewrite app_nil_r. Qed.

Lemma called_app st cs cs' : called (called st cs) cs' = called st (cs ++ cs').
Proof. unfold called; simpl. by rewrite app_assoc. Qed.

Lemma invoke_eq c st :
  invoke API c st =
  (match gcloud.failure API (history st) c with
   | None => Ok tt
   | Some e => Err e
   end, called st [c]).
Proof. unfold invoke, called. by destruct (gcloud.failure _ _ _). Qed.

(** A run stops at the first failure and keeps the registry. *)
Lemma run_calls_eq cs st :
  run_calls API cs st =
  match first_failure API (history st) cs with
  | None => (Ok tt, called st cs)
  | Some (k, e) => (Err e, called st (take (S k) cs))
  end.
Proof.
  revert st. induction cs as [|c cs IH]; intros st; simpl.
  - by rewrite called_nil.
  - unfold bind. rewrite invoke_eq.
    destruct (gcloud.failure API (history st) c) as [e|]; [done|].
    rewrite IH. simpl.
    destruct (first_failure API (history st ++ [c]) cs) as [[k e]|];
      by rewrite called_app.
Qed.

Lemma first_failure_Some h cs k e :
  first_failure API h cs = Some (k, e) →
  ∃ c, cs !! k = Some c
       ∧ gcloud.failure API (h ++ take k cs) c = Some e
       ∧ first_failure API h (take k cs) = None.
Proof.
  revert h k. induction cs as [|c cs IH]; intros h k; simpl; [done|].
  destruct (gcloud.failure API h c) as [e'|] eqn:Hc.
  - intros [= <- <-]. exists c. simpl. by rewrite app_nil_r.
  - destruct (first_failure API (h ++ [c]) cs) as [[k' e']|] eqn:Hrest; [|done].
    intros [= <- <-]. destruct (IH _ _ Hrest) as (c' & Hk & Hf & Hn).
    exists c'. simpl. rewrite Hc, Hn. by rewrite <- app_assoc in Hf.
Qed.

Lemma first_failure_None h cs :
  first_failure API h cs = None ↔
  ∀ (pre : list gcloud.call) c post,
    cs = pre ++ c :: post → gcloud.failure API (h ++ pre) c = None.
Proof.
  revert h. induction cs as [|c cs IH]; intros h; simpl.
  - split; [|done]. intros _ [|??] ???; done.
  - destruct (gcloud.failure API h c) as [e'|] eqn:Hc.
    + split; [done|]. intros H. specialize (H [] c cs eq_refl).
      rewrite app_nil_r in H. congruence.
    + destruct (first_failure API (h ++ [c]) cs) as [[k' e']|] eqn:Hrest.
      * split; [done|]. intros H. exfalso.
        assert (first_failure API (h ++ [c]) cs = None) as Hn; [|congruence].
        apply IH. intros pre c' post ->. rewrite <- app_assoc.
        by apply (H (c :: pre) c' post).
      * split; [|done]. intros _ [|c0 pre] c' post; simpl.
        -- intros [= <- <-]. by rewrite app_nil_r.
        -- intros [= <- ->]. destruct (IH (h ++ [c])) as [Hall _].
           specialize (Hall Hrest pre c' post eq_refl).
           by rewrite <- app_assoc in Hall.
Qed.

End RunTheory.

(** ** The commit, step by step *)

Section CommitTheory.

Variable ParseProperties : group.Spec → result types.Spec.
Variable flavorPlugins : string → result flavor.Plugin.
Variable ParseInstanceProperties : string → result instance_types.Properties.
Variable ParseMetadata : instance.Spec → result (gmap string string).
Variable TagsToMetaData : gmap string string → gcloud.Metadata.
Variable API : gcloud.API.t.

Local Abbreviation validate :=
  (validate ParseProperties flavorPlugins ParseInstanceProperties).
Local Abbreviation apply := (apply ParseMetadata TagsToMetaData API).
Local Abbreviation planned_calls := (planned_calls TagsToMetaData).
Local Abbreviation CommitGroup :=
  (CommitGroup ParseProperties flavorPlugins ParseInstanceProperties
     ParseMetadata TagsToMetaData API).

Local Abbreviation metadata_read := (metadata_read ParseMetadata).

Lemma apply_eq name targetSize v st :
  apply name targetSize v st =
  match metadata_read v with
  | Err e => (Err e, st)
  | Ok metadata =>
      let cs := planned_calls name targetSize v metadata in
      match first_failure API (history st) cs with
      | None =>
          (Ok (record_template (settings_ v)
                 (template_name name (currentTemplate (settings_ v)))),
           called st cs)
      | Some (k, e) => (Err e, called st (take (S k) cs))
      end
  end.
Proof.
  destruct v as [s ops mk tp up rs], st as [g h].
  unfold apply, metadata_read, planned_calls,
    template_name, called, when, lift, bind, ret, fail, invoke.
  cbn [settings_ createTemplate createManager updateManager resize
       record_template instanceSpec instanceProperties currentTemplate
       history groups].
  destruct tp; [destruct (ParseMetadata (instanceSpec s)) as [md|e]|].
  all: destruct mk, up, rs; cbn [app first_failure history groups].
  all: repeat match goal with
              | |- context [gcloud.failure ?a ?h ?c] =>
                  destruct (gcloud.failure a h c);
                  cbn [app first_failure history groups take]
              end.
  all: rewrite <- ?app_assoc, ?app_nil_r; try reflexivity.
Qed.

(** The whole commit in one equation. *)
Lemma CommitGroup_eq config pretend st :
  CommitGroup config pretend st =
  match validate config with
  | Err e => (Err e, st)
  | Ok newSettings =>
      let name := group.id config in
      let targetSize :=
        int64 (types.Size (types.Allocation (spec newSettings))) in
      let v := compare pretend targetSize newSettings (groups st !! name) in
      let summary := Join (operations v) newline in
      if pretend then
        (Ok summary,
         {| groups := <[name := settings_ v]> (groups st);
            history := history st |})
      else
        match apply name targetSize v st with
        | (Ok settings, st') =>
            (Ok summary,
             {| groups := <[name := settings]> (groups st);
                history := history st' |})
        | (Err e, st') => (Err e, st')
        end
  end.
Proof.
  unfold CommitGroup, bind, lift.
  destruct (validate config) as [newSettings|e]; [|done].
  cbn [ret get_groups put_groups negb].
  destruct pretend; cbn [negb ret groups history]; [done|].
  destruct (apply _ _ _ st) as [[settings|e] st']; done.
Qed.

Lemma apply_groups name targetSize v st :
  groups (apply name targetSize v st).2 = groups st.
Proof.
  rewrite apply_eq. destruct (metadata_read v); [|done].
  cbn zeta. by destruct (first_failure _ _ _) as [[??]|].
Qed.

(** What [validate] has checked when it succeeds. *)
Lemma validate_Ok config newSettings :
  validate config = Ok newSettings →
  group.id config ≠ ""
  ∧ ParseProperties config = Ok (spec newSettings)
  ∧ types.LogicalIDs (types.Allocation (spec newSettings)) = None
  ∧ 0 < types.Size (types.Allocation (spec newSettings))
  ∧ groupSpec newSettings = config
  ∧ currentTemplate newSettings = 1
  ∧ createdTemplates newSettings = [].
Proof.
  unfold validate, result_bind.
  destruct (decide _) as [|Hid]; [done|].
  destruct (ParseProperties config) as [sp|]; [|done].
  case_bool_decide as Hids; [done|].
  destruct (Z.leb_spec (types.Size (types.Allocation sp)) 0); [done|].
  destruct (flavorPlugins _) as [fp|]; [|done].
  destruct (flavor.Validate _ _ _); [done|].
  destruct (flavor.Prepare _ _ _ _); [|done].
  destruct (ParseInstanceProperties _); [|done].
  intros [= <-]. cbn. repeat split; try done.
Qed.

End CommitTheory.

(** ** Facts about lists of calls, strings and machine integers *)

Lemma Split_nonempty s sep : Split s sep ≠ [].
Proof.
  destruct s as [|c s]; [done|]. simpl.
  destruct (Ascii.eqb c sep); [done|]. by destruct (Split s sep).
Qed.

(** [parts[len(parts)-1]] in [last] is always in range. *)
Lemma last_in_range url : list.last (Split url "/") = Some (last url).
Proof.
  unfold last. pose proof (Split_nonempty url "/") as H.
  destruct (Split url "/") as [|p ps] using rev_ind; [done|].
  by rewrite last_snoc.
Qed.

Lemma int64_small z : - 2 ^ 63 ≤ z ≤ max_int → int64 z = z.
Proof.
  unfold int64, max_int. intros H.
  rewrite Z.mod_small by lia. lia.
Qed.

Lemma same_properties_refl a : same_properties a a = true.
Proof.
  unfold same_properties. by rewrite !bool_decide_eq_true_2.
Qed.

(** Where the table of the code is the table of the specification: for
    a size that fits [int64], a stored version below the largest [int]
    and instance properties that are the same record whenever the data
    model takes them for equal. *)
Lemma issued_table_in_range (id : group.ID) stored new :
  0 < types.Size (types.Allocation (spec new)) ≤ max_int →
  (∀ old, stored = Some old →
     1 ≤ currentTemplate old < max_int
     ∧ (same_properties (instanceProperties old) (instanceProperties new)
        = true → instanceProperties old = instanceProperties new)) →
  issued_operations id stored new = table_operations id stored new
  ∧ issued_version stored new = table_version stored new.
Proof.
  intros Hsize Hold. unfold issued_operations, issued_version,
    table_operations, table_version.
  rewrite int64_small by (unfold max_int in *; lia).
  destruct stored as [old|]; [|done].
  destruct (Hold old eq_refl) as [Hversion Hsame].
  unfold int. rewrite int64_small by (unfold max_int in *; lia).
  unfold DeepEqual. case_bool_decide as Heq.
  - by rewrite Heq, same_properties_refl.
  - destruct (same_properties _ _); [by destruct Heq; apply Hsame|done].
Qed.

Lemma app_eq_snoc {A} (l pre post : list A) (x c : A) :
  l ++ [x] = pre ++ c :: post →
  (post = [] ∧ l = pre ∧ x = c) ∨ ∃ post', l = pre ++ c :: post'.
Proof.
  destruct post as [|y post _] using rev_ind.
  - intros [-> ->]%app_inj_tail. by left.
  - rewrite app_comm_cons, app_assoc. intros [-> _]%app_inj_tail.
    right. by exists post.
Qed.

Lemma app_eq_self {A} (l more : list A) : l = l ++ more → more = [].
Proof.
  intros H. apply (f_equal length) in H. rewrite length_app in H.
  destruct more; [done|]. simpl in H. lia.
Qed.

Section Claims.

Variable ParseProperties : group.Spec → result types.Spec.
Variable flavorPlugins : string → result flavor.Plugin.
Variable ParseInstanceProperties : string → result instance_types.Properties.
Variable ParseMetadata : instance.Spec → result (gmap string string).
Variable TagsToMetaData : gmap string string → gcloud.Metadata.
Variable MetaDataToTags : gcloud.Metadata → gmap string string.
Variable API : gcloud.API.t.

Local Abbreviation validate :=
  (validate ParseProperties flavorPlugins ParseInstanceProperties).
Local Abbreviation apply := (apply ParseMetadata TagsToMetaData API).
Local Abbreviation planned_calls := (planned_calls TagsToMetaData).
Local Abbreviation metadata_read := (metadata_read ParseMetadata).
Local Abbreviation CommitGroup :=
  (CommitGroup ParseProperties flavorPlugins ParseInstanceProperties
     ParseMetadata TagsToMetaData API).
Local Abbreviation DescribeGroup := (DescribeGroup MetaDataToTags API).
Local Abbreviation DestroyGroup := (DestroyGroup API).

Lemma compare_updateManager pretend targetSize newSettings stored :
  updateManager (compare pretend targetSize newSettings stored) = false.
Proof. by destruct stored. Qed.

Lemma compare_createManager pretend targetSize newSettings stored :
  createManager (compare pretend targetSize newSettings stored)
  = bool_decide (stored = None).
Proof. by destruct stored. Qed.

Lemma planned_calls_kinds name targetSize v metadata :
  updateManager v = false →
  Forall (λ c, is_SetInstanceTemplate c = false ∧ is_delete c = false)
    (planned_calls name targetSize v metadata).
Proof.
  intros Hup. unfold planned_calls. rewrite Hup.
  destruct (createTemplate v), (createManager v), (resize v); simpl;
    repeat constructor.
Qed.

(** The calls of a commit: the history only grows, by calls that are
    neither [SetInstanceTemplate] nor deletions. *)
Lemma CommitGroup_calls config pretend st :
  ∃ new, history (CommitGroup config pretend st).2 = history st ++ new
         ∧ Forall (λ c, is_SetInstanceTemplate c = false
                        ∧ is_delete c = false) new.
Proof.
  rewrite CommitGroup_eq.
  destruct (validate config) as [newSettings|e];
    [|exists []; by rewrite app_nil_r].
  cbn zeta. destruct pretend; [exists []; by rewrite app_nil_r|].
  set (v := compare _ _ _ _).
  pose proof (compare_updateManager false
    (int64 (types.Size (types.Allocation (spec newSettings))))
    newSettings (groups st !! group.id config)) as Hup. fold v in Hup.
  rewrite apply_eq. destruct (metadata_read v) as [md|e];
    [|exists []; by rewrite app_nil_r].
  cbn zeta.
  pose proof (planned_calls_kinds (group.id config)
    (int64 (types.Size (types.Allocation (spec newSettings)))) v md Hup) as Hk.
  destruct (first_failure _ _ _) as [[k e]|]; simpl.
  - eexists. split; [done|]. by apply Forall_take.
  - eexists. split; done.
Qed.

(** A commit that fails, for whatever reason, leaves the registry as it
    was. *)
Lemma CommitGroup_error_keeps_registry config pretend st e :
  (CommitGroup config pretend st).1 = Err e →
  groups (CommitGroup config pretend st).2 = groups st.
Proof.
  rewrite CommitGroup_eq.
  destruct (validate config) as [newSettings|]; [|done].
  cbn zeta. destruct pretend; [done|].
  pose proof (apply_groups ParseMetadata TagsToMetaData API (group.id config)
    (int64 (types.Size (types.Allocation (spec newSettings))))
    (compare false (int64 (types.Size (types.Allocation (spec newSettings))))
       newSettings (groups st !! group.id config)) st) as Hg.
  by destruct (apply _ _ _ st) as [[settings|e'] st'].
Qed.

(** C9: a commit never calls [SetInstanceTemplate], whatever the spec,
    the dry-run flag and the registry: the comparison with the registry
    never sets [updateManager], and no call that the commit adds to the
    history is a [SetInstanceTemplate]. *)
Theorem CommitGroup_never_sets_template config pretend st :
  (∀ targetSize newSettings stored,
     updateManager (compare pretend targetSize newSettings stored) = false)
  ∧ ∃ new, history (CommitGroup config pretend st).2 = history st ++ new
           ∧ Forall (λ c, is_SetInstanceTemplate c = false) new.
Proof.
  split; [intros; apply compare_updateManager|].
  destruct (CommitGroup_calls config pretend st) as (new & Hnew & Hkinds).
  exists new. split; [done|].
  eapply Forall_impl; [exact Hkinds|]. by intros c [? _].
Qed.

(** C5: when a call that a commit (not a dry run) makes on the driver
    fails with [e], the commit returns [e], that call is the last one it
    makes, and the registry is as before the commit; the calls made
    before the failing one stay made: the commit issues no deletion. *)
Theorem CommitGroup_driver_failure config st
    (pre : list gcloud.call) c post e :
  history (CommitGroup config false st).2 = history st ++ pre ++ c :: post →
  gcloud.failure API (history st ++ pre) c = Some e →
  (CommitGroup config false st).1 = Err e
  ∧ post = []
  ∧ groups (CommitGroup config false st).2 = groups st
  ∧ Forall (λ c', is_delete c' = false) (pre ++ [c]).
Proof.
  intros Hhist Hfail.
  assert (Forall (λ c', is_delete c' = false) (pre ++ c :: post)) as Hdel.
  { destruct (CommitGroup_calls config false st) as (new & Hnew & Hkinds).
    rewrite Hnew in Hhist. apply app_inv_head in Hhist as ->.
    eapply Forall_impl; [exact Hkinds|]. by intros ? [_ ?]. }
  revert Hhist. rewrite CommitGroup_eq.
  destruct (validate config) as [newSettings|e0].
  2:{ intros H%app_eq_self. by destruct pre. }
  cbn zeta. rewrite apply_eq.
  destruct (metadata_read _) as [md|e0].
  2:{ intros H%app_eq_self. by destruct pre. }
  cbn zeta. set (cs := planned_calls _ _ _ _).
  destruct (first_failure API (history st) cs) as [[k e0]|] eqn:Hff; simpl.
  - intros Hcs%app_inv_head.
    destruct (first_failure_Some _ _ _ _ _ Hff) as (c0 & Hk & Hc0 & Hnone).
    rewrite (take_S_r _ _ _ Hk) in Hcs.
    destruct (app_eq_snoc _ _ _ _ _ Hcs) as [(-> & Hpre & <-)|[post' Hpre]].
    + rewrite Hpre in Hc0. rewrite Hc0 in Hfail. injection Hfail as ->.
      by repeat split.
    + exfalso.
      pose proof (proj1 (first_failure_None _ _ _) Hnone pre c post' Hpre).
      congruence.
  - intros Hcs%app_inv_head. exfalso.
    pose proof (proj1 (first_failure_None _ _ _) Hff pre c post Hcs).
    congruence.
Qed.

(** C4: a successful commit that is not a dry run leaves the group with
    the history of created templates it had before (none for a group
    that was not watched) followed by one more name, the group's ID,
    a dash and the version that the commit leaves, whether or not the
    commit created a template. *)
Theorem CommitGroup_records_template config st summary st' :
  CommitGroup config false st = (Ok summary, st') →
  ∃ settings',
    groups st' !! group.id config = Some settings'
    ∧ createdTemplates settings' =
        match groups st !! group.id config with
        | Some old => createdTemplates old
        | None => []
        end ++ [template_name (group.id config) (currentTemplate settings')].
Proof.
  rewrite CommitGroup_eq.
  destruct (validate config) as [newSettings|e] eqn:Hv; [|done].
  cbn zeta. rewrite apply_eq.
  destruct (metadata_read _) as [md|e]; [|done].
  cbn zeta. destruct (first_failure _ _ _) as [[k e]|]; [done|].
  intros [= _ <-]. eexists. cbn [groups].
  split; [apply lookup_insert_eq|].
  destruct (groups st !! group.id config) as [old|]; cbn.
  - by destruct (DeepEqual _ _).
  - by destruct (validate_Ok _ _ _ _ _ Hv) as (_ & _ & _ & _ & _ & _ & ->).
Qed.

(** C2, as the code has it: a successful commit that is not a dry run
    issues exactly the operations of the state table and leaves the
    version of the table, where the table compares instance properties
    by [reflect.DeepEqual], gives the driver the size converted to
    [int64] and counts versions as Go [int]s: for a group that is not
    watched, one template (version 1) and one manager of that size; for
    a watched group, one new template and the next version when the
    instance properties differ, one resize to the new size when the
    sizes differ, both when both differ, and nothing when neither
    does. *)
Theorem CommitGroup_state_table config st summary st' newSettings :
  validate config = Ok newSettings →
  CommitGroup config false st = (Ok summary, st') →
  ∃ new settings',
    history st' = history st ++ new
    ∧ operation_of <$> new =
        issued_operations (group.id config)
          (groups st !! group.id config) newSettings
    ∧ groups st' !! group.id config = Some settings'
    ∧ currentTemplate settings' =
        issued_version (groups st !! group.id config) newSettings.
Proof.
  intros Hv Hcommit. revert Hcommit.
  destruct (validate_Ok _ _ _ _ _ Hv) as (_ & _ & _ & Hpos & _ & Hone & _).
  rewrite CommitGroup_eq, Hv. cbn zeta. rewrite apply_eq.
  destruct (metadata_read _) as [md|e]; [|done].
  cbn zeta. destruct (first_failure _ _ _) as [[k e]|]; [done|].
  intros [= _ <-]. eexists _, _. cbn [groups history called].
  split; [reflexivity|]. split; [|split; [apply lookup_insert_eq|]].
  - unfold planned_calls, issued_operations, template_name.
    destruct (groups st !! group.id config) as [old|] eqn:Hold.
    + cbn [compare createTemplate createManager updateManager resize
           settings_ negb andb].
      rewrite andb_true_r.
      destruct (DeepEqual (instanceProperties old)
                  (instanceProperties newSettings));
        (destruct (decide (types.Size (types.Allocation (spec old))
                   = types.Size (types.Allocation (spec newSettings))))
           as [Heq|Hne];
         [rewrite (proj2 (Z.eqb_eq _ _) Heq)
         |rewrite (proj2 (Z.eqb_neq _ _) Hne)]);
        cbn [negb bump currentTemplate app fmap list_fmap operation_of];
        reflexivity.
    + cbn. by rewrite Hone.
  - unfold issued_version.
    destruct (groups st !! group.id config) as [old|] eqn:Hold; [|done].
    cbn [compare settings_ record_template currentTemplate].
    rewrite andb_true_r.
    by destruct (DeepEqual (instanceProperties old)
                   (instanceProperties newSettings)).
Qed.


(** X13: a commit for a watched group stores the settings it found, with
    their version and history brought up to date: the declared spec, the
    size, the instance spec and the instance properties of the entry
    stay those of the first commit; the version stays or is the next
    one, and the created templates are the stored ones and one more
    name, that of the version left. *)
Lemma CommitGroup_keeps_stored_spec config st summary st' old :
  groups st !! group.id config = Some old →
  CommitGroup config false st = (Ok summary, st') →
  ∃ settings',
    groups st' !! group.id config = Some settings'
    ∧ spec settings' = spec old
    ∧ groupSpec settings' = groupSpec old
    ∧ instanceSpec settings' = instanceSpec old
    ∧ instanceProperties settings' = instanceProperties old
    ∧ (currentTemplate settings' = currentTemplate old
       ∨ currentTemplate settings' = int (currentTemplate old + 1))
    ∧ createdTemplates settings'
      = createdTemplates old
        ++ [template_name (group.id config) (currentTemplate settings')].
Proof.
  intros Hold. rewrite CommitGroup_eq.
  destruct (validate config) as [newSettings|]; [|done].
  cbn zeta. rewrite apply_eq, Hold.
  destruct (metadata_read _) as [md|]; [|done].
  cbn zeta. destruct (first_failure _ _ _) as [[k e]|]; [done|].
  intros [= _ <-]. eexists. split; [apply lookup_insert_eq|].
  cbn. destruct (negb _); cbn; repeat split; auto.
Qed.

(** A dry run makes no call on the driver. *)
Lemma CommitGroup_pretend_history config st :
  history (CommitGroup config true st).2 = history st.
Proof. rewrite CommitGroup_eq. by destruct (validate config). Qed.

(** A dry run leaves the entry of a watched group as it is. *)
Lemma CommitGroup_pretend_watched config st old :
  groups st !! group.id config = Some old →
  groups (CommitGroup config true st).2 = groups st.
Proof.
  intros Hold. rewrite CommitGroup_eq.
  destruct (validate config) as [newSettings|]; [|done].
  cbn. rewrite Hold. cbn. rewrite andb_false_r. by apply insert_id.
Qed.

Lemma delete_templates_eq names st :
  delete_templates API names st
  = run_calls API (gcloud.DeleteInstanceTemplate <$> names) st.
Proof.
  revert st. induction names as [|n names IH]; intros st; [done|].
  cbn. unfold bind. destruct (invoke API _ st) as [[[]|e] st1]; [|done].
  apply IH.
Qed.

Lemma DestroyGroup_eq id st :
  DestroyGroup id st =
  match groups st !! id with
  | None => (Err (not_watched id), st)
  | Some currentSettings =>
      match first_failure API (history st) (destroy_calls id currentSettings) with
      | None =>
          (Ok tt,
           {| groups := delete id (groups st);
              history := history st ++ destroy_calls id currentSettings |})
      | Some (k, e) =>
          (Err e, called st (take (S k) (destroy_calls id currentSettings)))
      end
  end.
Proof.
  unfold DestroyGroup, bind at 1, get_groups.
  destruct (groups st !! id) as [cur|]; [|done].
  unfold destroy_calls. cbn [first_failure]. unfold bind at 1.
  rewrite invoke_eq.
  destruct (gcloud.failure API (history st) _) as [e|]; [done|].
  unfold bind at 1. rewrite delete_templates_eq, run_calls_eq.
  cbn [history called].
  destruct (first_failure _ _ _) as [[k e]|].
  - cbn [take]. by rewrite called_app.
  - unfold bind, get_groups, put_groups. cbn. by rewrite <- app_assoc.
Qed.

Lemma describe_history members instances st :
  ∃ tail, history (describe MetaDataToTags API members instances st).2
          = history st ++ tail.
Proof.
  revert instances st.
  induction members as [|m members IH]; intros instances st; cbn.
  - exists []. by rewrite app_nil_r.
  - unfold bind, getInstance.
    destruct (gcloud.API.GetInstance _ _ _) as [inst|e]; cbn.
    + match goal with
      | |- context [describe _ _ _ ?acc ?st1] =>
          destruct (IH acc st1) as [tail Htail]
      end.
      cbn in Htail. rewrite Htail, <- app_assoc. by eexists.
    + by eexists.
Qed.

Lemma DescribeGroup_eq id st :
  DescribeGroup id st =
  match groups st !! id with
  | None => (Err (not_watched id), st)
  | Some currentSettings =>
      let st1 := called st [gcloud.ListInstanceGroupInstances id] in
      match gcloud.API.ListInstanceGroupInstances API (history st) id with
      | Err e => (Err e, st1)
      | Ok instanceGroupInstances =>
          match describe MetaDataToTags API instanceGroupInstances [] st1 with
          | (Ok instances, st') =>
              (Ok {| group.Converged :=
                       Z.of_nat (length instanceGroupInstances)
                       =? int (types.Size
                                 (types.Allocation (spec currentSettings)));
                     group.Instances := instances |}, st')
          | (Err e, st') => (Err e, st')
          end
      end
  end.
Proof.
  unfold DescribeGroup, bind at 1, get_groups.
  destruct (groups st !! id) as [cur|]; [|done].
  unfold bind, listInstanceGroupInstances, called. cbn zeta.
  destruct (gcloud.API.ListInstanceGroupInstances _ _ _) as [ms|e]; [|done].
  by destruct (describe _ _ _ _ _) as [[ds|e] st'].
Qed.

(** C6: the destruction of a watched group calls the driver to delete
    the manager first and then every created template, in the order of
    the history, superseded ones included.  Either every call succeeds,
    and the entry is then removed from the registry; or the calls stop
    at the first that fails, its error is returned, and the registry is
    as before. *)
Theorem DestroyGroup_order (id : group.ID) st currentSettings :
  groups st !! id = Some currentSettings →
  let plan :=
    gcloud.DeleteInstanceGroupManager id
    :: (gcloud.DeleteInstanceTemplate <$> createdTemplates currentSettings) in
  let r := DestroyGroup id st in
  (r.1 = Ok tt
   ∧ history r.2 = history st ++ plan
   ∧ groups r.2 = delete id (groups st)
   ∧ ∀ (pre : list gcloud.call) c post,
       plan = pre ++ c :: post →
       gcloud.failure API (history st ++ pre) c = None)
  ∨ (∃ k c e,
       plan !! k = Some c
       ∧ gcloud.failure API (history st ++ take k plan) c = Some e
       ∧ r.1 = Err e
       ∧ history r.2 = history st ++ take (S k) plan
       ∧ groups r.2 = groups st).
Proof.
  intros Hcur plan r. subst r. rewrite DestroyGroup_eq, Hcur.
  fold (destroy_calls id currentSettings) in plan. fold plan.
  destruct (first_failure API (history st) plan) as [[k e]|] eqn:Hff.
  - right. destruct (first_failure_Some _ _ _ _ _ Hff) as (c & Hk & Hc & _).
    by exists k, c, e.
  - left. repeat split; try done. by apply first_failure_None.
Qed.

(** C8: when the description of a watched group succeeds, [Converged]
    is true exactly when the number of members that the driver lists
    is the allocation size stored in the registry.  The size is an
    unsigned machine integer and the length of a slice a signed one. *)
Theorem DescribeGroup_converged (id : group.ID) st currentSettings members
    description st' :
  groups st !! id = Some currentSettings →
  gcloud.API.ListInstanceGroupInstances API (history st) id = Ok members →
  DescribeGroup id st = (Ok description, st') →
  0 ≤ types.Size (types.Allocation (spec currentSettings)) ≤ max_uint →
  Z.of_nat (length members) ≤ max_int →
  group.Converged description = true
  ↔ Z.of_nat (length members)
    = types.Size (types.Allocation (spec currentSettings)).
Proof.
  intros Hcur Hlist Hdesc Hsize Hlen. revert Hdesc.
  rewrite DescribeGroup_eq, Hcur, Hlist. cbn zeta.
  destruct (describe _ _ _ _ _) as [[instances|e] st1]; [|done].
  intros [= <- _]. cbn [group.Converged]. rewrite Z.eqb_eq.
  unfold int, int64, max_uint, max_int in *.
  destruct (decide (types.Size (types.Allocation (spec currentSettings))
                    < 2 ^ 63)).
  - rewrite Z.mod_small by lia. lia.
  - replace (types.Size (types.Allocation (spec currentSettings)) + 2 ^ 63)
      with (types.Size (types.Allocation (spec currentSettings)) - 2 ^ 63
            + 1 * 2 ^ 64) by lia.
    rewrite Z.mod_add by lia. rewrite Z.mod_small by lia. lia.
Qed.

(** C10: a dry run for a group that is not watched, with a spec that
    validates, makes no call on the driver and yet stores the new
    settings, of version 1 and with no created template, under the
    group's ID.  The group is then watched: freeing it succeeds, and
    describing or destroying it goes on to call the driver. *)
Theorem CommitGroup_pretend_registers config st newSettings :
  validate config = Ok newSettings →
  groups st !! group.id config = None →
  let id := group.id config in
  let st' :=
    {| groups := <[id := newSettings]> (groups st);
       history := history st |} in
  CommitGroup config true st
  = (Ok ("Managing "
         +:+ fmt_d (int64 (types.Size (types.Allocation (spec newSettings))))
         +:+ " instances"), st')
  ∧ groups st' !! id = Some newSettings
  ∧ currentTemplate newSettings = 1
  ∧ createdTemplates newSettings = []
  ∧ FreeGroup id st'
    = (Ok tt, {| groups := delete id (groups st'); history := history st |})
  ∧ (∃ tail, history (DescribeGroup id st').2
             = history st ++ gcloud.ListInstanceGroupInstances id :: tail)
  ∧ (∃ tail, history (DestroyGroup id st').2
             = history st ++ gcloud.DeleteInstanceGroupManager id :: tail).
Proof.
  intros Hv Hnone id st'.
  destruct (validate_Ok _ _ _ _ _ Hv) as (_ & _ & _ & _ & _ & Hone & Hnil).
  assert (groups st' !! id = Some newSettings) as Hin
    by apply lookup_insert_eq.
  split; [|split; [done|split; [done|split; [done|split; [|split]]]]].
  - rewrite CommitGroup_eq, Hv. cbn zeta. by rewrite Hnone.
  - unfold FreeGroup, bind, get_groups. by rewrite Hin.
  - rewrite DescribeGroup_eq, Hin. cbn zeta.
    destruct (gcloud.API.ListInstanceGroupInstances _ _ _) as [ms|e];
      [|by exists []].
    match goal with
    | |- context [describe _ _ ?ms ?acc ?st1] =>
        destruct (describe_history ms acc st1) as [tail Htail]
    end.
    exists tail. destruct (describe _ _ _ _ _) as [[ds|e] st2];
      cbn in *; by rewrite Htail, <- app_assoc.
  - rewrite DestroyGroup_eq, Hin. unfold destroy_calls. rewrite Hnil. cbn.
    destruct (gcloud.API.DeleteInstanceGroupManager _ _ _); by exists [].
Qed.

(** C7, as the code has it: validation fails on a blank group ID, on
    an allocation size that is not positive, on logical IDs that are
    not nil (an empty list that is not nil included), on a flavor
    plugin that cannot be found and on a flavor that rejects the spec;
    the commit then returns the same error and leaves the registry and
    the driver alone.  With nil logical IDs and nothing else to reject,
    validation succeeds. *)
Theorem validate_rejects :
  (∀ config,
     group.id config = ""
     ∨ (∃ sp, ParseProperties config = Ok sp
              ∧ (types.Size (types.Allocation sp) ≤ 0
                 ∨ types.LogicalIDs (types.Allocation sp) ≠ None
                 ∨ is_Err (flavorPlugins (types.Plugin (types.Flavor sp)))
                 ∨ ∃ flavorPlugin,
                     flavorPlugins (types.Plugin (types.Flavor sp))
                     = Ok flavorPlugin
                     ∧ is_Some (flavor.Validate flavorPlugin
                                  (types.Properties (types.Flavor sp))
                                  (types.Allocation sp)))) →
     ∃ e, validate config = Err e
          ∧ ∀ pretend st, CommitGroup config pretend st = (Err e, st))
  ∧ (∀ config sp flavorPlugin prepared properties,
       group.id config ≠ "" →
       ParseProperties config = Ok sp →
       types.LogicalIDs (types.Allocation sp) = None →
       0 < types.Size (types.Allocation sp) →
       flavorPlugins (types.Plugin (types.Flavor sp)) = Ok flavorPlugin →
       flavor.Validate flavorPlugin (types.Properties (types.Flavor sp))
         (types.Allocation sp) = None →
       flavor.Prepare flavorPlugin (types.Properties (types.Flavor sp))
         {| instance.Properties := types.Properties (types.Instance sp);
            instance.Tags := ∅; instance.Init := "" |}
         (types.Allocation sp) = Ok prepared →
       ParseInstanceProperties (instance.Properties prepared) = Ok properties →
       validate config
       = Ok {| spec := sp; groupSpec := config; instanceSpec := prepared;
               instanceProperties := properties; currentTemplate := 1;
               createdTemplates := [] |}).
Proof.
  split.
  - intros config Hbad.
    assert (∃ e, validate config = Err e) as [e He].
    { unfold validate, result_bind.
      destruct (decide _) as [|Hid]; [by eexists|].
      destruct Hbad as [?|(sp & -> & Hsp)]; [done|].
      case_bool_decide as Hids; [by eexists|].
      destruct (Z.leb_spec (types.Size (types.Allocation sp)) 0) as [|Hpos];
        [by eexists|].
      destruct Hsp as [?|[?|[[e He]|(fp & -> & [e He])]]];
        [lia|done|rewrite He; by eexists|rewrite He; by eexists]. }
    exists e. split; [done|]. intros pretend st.
    by rewrite CommitGroup_eq, He.
  - intros config sp fp prepared properties Hid Hsp Hids Hpos Hfp Hval Hprep Hprops.
    unfold validate, result_bind.
    destruct (decide _); [done|]. rewrite Hsp, Hids.
    rewrite bool_decide_eq_false_2 by (by intros []).
    destruct (Z.leb_spec (types.Size (types.Allocation sp)) 0); [lia|].
    by rewrite Hfp, Hval, Hprep, Hprops.
Qed.

End Claims.

(** ** The theorems on the stand-ins *)

Example last_of_url : last "zones/z/instances/g-a" = "g-a".
Proof. reflexivity. Qed.

Example commit_second :
  (createdTemplates <$> groups Doubles.updated !! "g") = Some ["g-1"; "g-2"]
  ∧ (currentTemplate <$> groups Doubles.updated !! "g") = Some 2
  ∧ operation_of <$> history Doubles.updated
    = [CreateTemplate "g-1"; CreateManager "g" 3; CreateTemplate "g-2"].
Proof. vm_compute. auto. Qed.

(** C1: on the empty registry a dry run of a valid spec for [g] makes no
    call on the driver but registers [g], which the registry did not hold
    before; the commit proper that follows finds the group watched and
    creates neither a template nor a manager. *)
Theorem dry_run_registers_unknown_group :
  Doubles.commit Doubles.obliging (Doubles.g "3 small") true Doubles.nothing
  = (Ok "Managing 3 instances", Doubles.rehearsed)
  ∧ history Doubles.rehearsed = []
  ∧ groups Doubles.nothing !! "g" = None
  ∧ groups Doubles.rehearsed !! "g"
    = Some (Doubles.settings_of "3 small" 3 "small")
  ∧ history (Doubles.commit Doubles.obliging (Doubles.g "3 small") false
               Doubles.rehearsed).2 = [].
Proof. repeat split; vm_compute; reflexivity. Qed.

Lemma CommitGroup_state_table_witness :
  Doubles.check (Doubles.g "5 large")
  = Ok (Doubles.settings_of "5 large" 5 "large")
  ∧ ∃ new settings',
      history (Doubles.commit Doubles.obliging (Doubles.g "5 large") false
                 Doubles.committed).2
      = history Doubles.committed ++ new
      ∧ operation_of <$> new = [CreateTemplate "g-2"; ResizeManager "g" 5]
      ∧ groups (Doubles.commit Doubles.obliging (Doubles.g "5 large") false
                  Doubles.committed).2 !! "g" = Some settings'
      ∧ currentTemplate settings' = 2.
Proof.
  split; [reflexivity|].
  apply (CommitGroup_state_table Doubles.ParseProperties Doubles.flavorPlugins
           Doubles.ParseInstanceProperties Doubles.ParseMetadata
           Doubles.TagsToMetaData Doubles.obliging (Doubles.g "5 large")
           Doubles.committed
           ("Updating instance template" +:+ newline
            +:+ "Scaling group to 5 instance.")
           (Doubles.commit Doubles.obliging (Doubles.g "5 large") false
              Doubles.committed).2
           (Doubles.settings_of "5 large" 5 "large")).
  - reflexivity.
  - vm_compute. reflexivity.
Defined.

(** The state table of the specification does not hold as it is worded.
    A group of 2^63 instances validates, and its manager is created
    with the size -2^63, where the table has 2^63.  And a commit whose
    instance properties carry the tags of the stored ones in another
    order creates a template and the next version, where the table,
    taking the properties for equal, has no operation and the version
    unchanged. *)
Lemma commit_departs_from_table :
  (TableDoubles.check (Doubles.g "huge") = Ok TableDoubles.huge
   ∧ (TableDoubles.commit (Doubles.g "huge") false Doubles.nothing).1
     = Ok "Managing -9223372036854775808 instances"
   ∧ operation_of <$>
       history (TableDoubles.commit (Doubles.g "huge") false
                  Doubles.nothing).2
     = [CreateTemplate "g-1"; CreateManager "g" (- 2 ^ 63)]
   ∧ table_operations "g" (groups Doubles.nothing !! "g") TableDoubles.huge
     = [CreateTemplate "g-1"; CreateManager "g" (2 ^ 63)])
  ∧ (TableDoubles.check (Doubles.g "3 ba")
     = Ok (TableDoubles.tags_of "3 ba" "ba" ["b"; "a"])
     ∧ groups TableDoubles.with_ab !! "g"
       = Some (record_template
                 (TableDoubles.tags_of "3 ab" "ab" ["a"; "b"]) "g-1")
     ∧ (TableDoubles.commit (Doubles.g "3 ba") false TableDoubles.with_ab).1
       = Ok "Updating instance template"
     ∧ operation_of <$>
         drop (length (history TableDoubles.with_ab))
           (history (TableDoubles.commit (Doubles.g "3 ba") false
                       TableDoubles.with_ab).2)
       = [CreateTemplate "g-2"]
     ∧ (currentTemplate <$>
          groups (TableDoubles.commit (Doubles.g "3 ba") false
                    TableDoubles.with_ab).2 !! "g") = Some 2
     ∧ table_operations "g" (groups TableDoubles.with_ab !! "g")
         (TableDoubles.tags_of "3 ba" "ba" ["b"; "a"]) = []
     ∧ table_version (groups TableDoubles.with_ab !! "g")
         (TableDoubles.tags_of "3 ba" "ba" ["b"; "a"]) = 1).
Proof.
  assert (same_properties (TableDoubles.tagged ["a"; "b"])
            (TableDoubles.tagged ["b"; "a"]) = true) as Hsame.
  { unfold same_properties.
    by rewrite !bool_decide_eq_true_2 by (done || apply perm_swap). }
  split.
  - repeat split; vm_compute; reflexivity.
  - split; [vm_compute; reflexivity|]. split; [vm_compute; reflexivity|].
    split; [vm_compute; reflexivity|]. split; [vm_compute; reflexivity|].
    split; [vm_compute; reflexivity|].
    replace (groups TableDoubles.with_ab !! "g")
      with (Some (record_template
                    (TableDoubles.tags_of "3 ab" "ab" ["a"; "b"]) "g-1"))
      by (vm_compute; reflexivity).
    unfold table_operations, table_version.
    cbn [instanceProperties TableDoubles.tags_of record_template
         currentTemplate spec].
    rewrite Hsame. split; [|reflexivity]. by cbn.
Qed.



Lemma CommitGroup_records_template_witness :
  ∃ settings',
    groups Doubles.updated !! "g" = Some settings'
    ∧ createdTemplates settings'
      = ["g-1"] ++ [template_name "g" (currentTemplate settings')].
Proof.
  apply (CommitGroup_records_template Doubles.ParseProperties
           Doubles.flavorPlugins Doubles.ParseInstanceProperties
           Doubles.ParseMetadata Doubles.TagsToMetaData Doubles.obliging
           (Doubles.g "3 large") Doubles.committed
           "Updating instance template" Doubles.updated).
  vm_compute. reflexivity.
Defined.

Lemma CommitGroup_driver_failure_witness :
  let r :=
    Doubles.commit Doubles.no_manager (Doubles.g "3 small") false
      Doubles.nothing in
  history r.2 = [Doubles.first_template; Doubles.first_manager]
  ∧ r.1 = Err "quota exceeded"
  ∧ groups r.2 = groups Doubles.nothing.
Proof.
  split; [vm_compute; reflexivity|].
  destruct (CommitGroup_driver_failure Doubles.ParseProperties
              Doubles.flavorPlugins Doubles.ParseInstanceProperties
              Doubles.ParseMetadata Doubles.TagsToMetaData Doubles.no_manager
              (Doubles.g "3 small") Doubles.nothing
              [Doubles.first_template] Doubles.first_manager []
              "quota exceeded")
    as (Herr & _ & Hgroups & _).
  - vm_compute. reflexivity.
  - vm_compute. reflexivity.
  - split; [exact Herr|exact Hgroups].
Defined.

Lemma DestroyGroup_order_witness :
  groups Doubles.updated !! "g" = Some Doubles.updated_settings
  ∧ let plan :=
      [gcloud.DeleteInstanceGroupManager "g";
       gcloud.DeleteInstanceTemplate "g-1";
       gcloud.DeleteInstanceTemplate "g-2"] in
    let r := DestroyGroup Doubles.keeps_second_template "g" Doubles.updated in
    (r.1 = Ok tt
     ∧ history r.2 = history Doubles.updated ++ plan
     ∧ groups r.2 = delete "g" (groups Doubles.updated)
     ∧ ∀ (pre : list gcloud.call) c post,
         plan = pre ++ c :: post →
         gcloud.failure Doubles.keeps_second_template
           (history Doubles.updated ++ pre) c = None)
    ∨ (∃ k c e,
         plan !! k = Some c
         ∧ gcloud.failure Doubles.keeps_second_template
             (history Doubles.updated ++ take k plan) c = Some e
         ∧ r.1 = Err e
         ∧ history r.2 = history Doubles.updated ++ take (S k) plan
         ∧ groups r.2 = groups Doubles.updated).
Proof.
  split; [vm_compute; reflexivity|].
  apply (DestroyGroup_order Doubles.keeps_second_template "g" Doubles.updated
           Doubles.updated_settings).
  vm_compute. reflexivity.
Defined.

Example destroy_stops_at_refusal :
  let r := DestroyGroup Doubles.keeps_second_template "g" Doubles.updated in
  r.1 = Err "template in use"
  ∧ drop (length (history Doubles.updated)) (history r.2)
    = [gcloud.DeleteInstanceGroupManager "g";
       gcloud.DeleteInstanceTemplate "g-1";
       gcloud.DeleteInstanceTemplate "g-2"]
  ∧ groups r.2 !! "g" = Some Doubles.updated_settings.
Proof. vm_compute. auto. Qed.

Example destroy_removes_entry :
  let r := DestroyGroup Doubles.obliging "g" Doubles.updated in
  r.1 = Ok tt ∧ groups r.2 !! "g" = None.
Proof. vm_compute. auto. Qed.

Example validate_reasons :
  Doubles.check {| group.id := ""; group.Properties := "3 small" |}
  = Err "Group ID must not be blank"
  ∧ Doubles.check (Doubles.g "0 small") = Err "Allocation must be > 0"
  ∧ Doubles.check (Doubles.g "3 small [a]")
    = Err "Allocation.LogicalIDs is not supported"
  ∧ Doubles.check (Doubles.g "3 small unknown")
    = Err "Failed to find Flavor plugin 'unknown':plugin not found"
  ∧ Doubles.check (Doubles.g "3 small strict") = Err "flavor says no".
Proof. vm_compute. auto 6. Qed.

(** An allocation whose logical IDs are an empty list that is not nil,
    with nothing else to reject, does not pass: validation fails on the
    logical IDs, where the same spec with nil logical IDs validates. *)
Lemma empty_logicalIDs_rejected :
  Doubles.ParseProperties (Doubles.g "3 small []")
  = Ok (Doubles.mkSpec 3 (Some []) "vanilla" "small")
  ∧ Doubles.ParseProperties (Doubles.g "3 small")
    = Ok (Doubles.mkSpec 3 None "vanilla" "small")
  ∧ Doubles.check (Doubles.g "3 small []")
    = Err "Allocation.LogicalIDs is not supported"
  ∧ Doubles.check (Doubles.g "3 small")
    = Ok (Doubles.settings_of "3 small" 3 "small").
Proof. vm_compute. auto. Qed.

Lemma validate_rejects_witness :
  (∃ e, Doubles.check (Doubles.g "0 small") = Err e
        ∧ ∀ pretend st,
            Doubles.commit Doubles.obliging (Doubles.g "0 small") pretend st
            = (Err e, st))
  ∧ Doubles.check (Doubles.g "3 small")
    = Ok (Doubles.settings_of "3 small" 3 "small").
Proof.
  destruct (validate_rejects Doubles.ParseProperties Doubles.flavorPlugins
              Doubles.ParseInstanceProperties Doubles.ParseMetadata
              Doubles.TagsToMetaData Doubles.obliging) as [Hbad Hgood].
  split.
  - apply Hbad. right. exists (Doubles.mkSpec 0 None "vanilla" "small").
    split; [reflexivity|]. left. simpl. lia.
  - apply (Hgood (Doubles.g "3 small")
             (Doubles.mkSpec 3 None "vanilla" "small") Doubles.vanilla
             {| instance.Properties := "small"; instance.Tags := ∅;
                instance.Init := "" |}
             (Doubles.properties_of "small")); try reflexivity.
    discriminate.
Defined.

Lemma DescribeGroup_converged_witness :
  let r :=
    DescribeGroup Doubles.MetaDataToTags Doubles.three_members "g"
      Doubles.committed in
  r.1 = Ok {| group.Converged := true;
              group.Instances :=
                [{| instance.ID := "g-a"; instance.DTags := ∅ |};
                 {| instance.ID := "g-b"; instance.DTags := ∅ |};
                 {| instance.ID := "g-c"; instance.DTags := ∅ |}] |}
  ∧ (true = true ↔ 3 = 3).
Proof.
  split; [vm_compute; reflexivity|].
  apply (DescribeGroup_converged Doubles.MetaDataToTags Doubles.three_members
           "g" Doubles.committed
           (record_template (Doubles.settings_of "3 small" 3 "small") "g-1")
           [{| gcloud.Instance := "zones/z/instances/g-a" |};
            {| gcloud.Instance := "zones/z/instances/g-b" |};
            {| gcloud.Instance := "zones/z/instances/g-c" |}]
           {| group.Converged := true;
              group.Instances :=
                [{| instance.ID := "g-a"; instance.DTags := ∅ |};
                 {| instance.ID := "g-b"; instance.DTags := ∅ |};
                 {| instance.ID := "g-c"; instance.DTags := ∅ |}] |}
           (DescribeGroup Doubles.MetaDataToTags Doubles.three_members "g"
              Doubles.committed).2).
  - vm_compute. reflexivity.
  - reflexivity.
  - vm_compute. reflexivity.
  - unfold max_uint. simpl. lia.
  - unfold max_int. simpl. lia.
Defined.

Example describe_not_converged :
  (group.Converged <$>
     match (DescribeGroup Doubles.MetaDataToTags Doubles.obliging "g"
              Doubles.committed).1 with
     | Ok d => Some d
     | Err _ => None
     end) = Some false.
Proof. vm_compute. reflexivity. Qed.

Lemma CommitGroup_pretend_registers_witness :
  Doubles.check (Doubles.g "3 small")
  = Ok (Doubles.settings_of "3 small" 3 "small")
  ∧ groups Doubles.nothing !! "g" = None
  ∧ Doubles.commit Doubles.obliging (Doubles.g "3 small") true Doubles.nothing
    = (Ok "Managing 3 instances",
       {| groups := {["g" := Doubles.settings_of "3 small" 3 "small"]};
          history := [] |})
  ∧ FreeGroup "g" Doubles.rehearsed
    = (Ok tt, {| groups := delete "g" (groups Doubles.rehearsed);
                 history := [] |}).
Proof.
  split; [reflexivity|]. split; [reflexivity|].
  destruct (CommitGroup_pretend_registers Doubles.ParseProperties
              Doubles.flavorPlugins Doubles.ParseInstanceProperties
              Doubles.ParseMetadata Doubles.TagsToMetaData
              Doubles.MetaDataToTags Doubles.obliging
              (Doubles.g "3 small") Doubles.nothing
              (Doubles.settings_of "3 small" 3 "small"))
    as (Hcommit & _ & _ & _ & Hfree & _).
  - reflexivity.
  - reflexivity.
  - split; [exact Hcommit|exact Hfree].
Defined.

(** ** More of the group plugin *)

Section Registry.

Variable ParseProperties : group.Spec → result types.Spec.
Variable flavorPlugins : string → result flavor.Plugin.
Variable ParseInstanceProperties : string → result instance_types.Properties.
Variable ParseMetadata : instance.Spec → result (gmap string string).
Variable TagsToMetaData : gmap string string → gcloud.Metadata.
Variable MetaDataToTags : gcloud.Metadata → gmap string string.
Variable API : gcloud.API.t.

Local Abbreviation validate :=
  (validate ParseProperties flavorPlugins ParseInstanceProperties).
Local Abbreviation apply := (apply ParseMetadata TagsToMetaData API).
Local Abbreviation planned_calls := (planned_calls TagsToMetaData).
Local Abbreviation metadata_read := (metadata_read ParseMetadata).
Local Abbreviation CommitGroup :=
  (CommitGroup ParseProperties flavorPlugins ParseInstanceProperties
     ParseMetadata TagsToMetaData API).
Local Abbreviation DescribeGroup := (DescribeGroup MetaDataToTags API).
Local Abbreviation DestroyGroup := (DestroyGroup API).
Local Abbreviation describe := (describe MetaDataToTags API).
Local Abbreviation fetched := (fetched MetaDataToTags API).

(** The loop of [DescribeGroup] in one equation. *)
Lemma describe_eq members instances st :
  describe members instances st =
  match first_failure API (history st)
          (gcloud.GetInstance <$> member_names members) with
  | None =>
      (Ok (instances ++ fetched (history st) (member_names members)),
       called st (gcloud.GetInstance <$> member_names members))
  | Some (k, e) =>
      (Err e,
       called st (take (S k) (gcloud.GetInstance <$> member_names members)))
  end.
Proof.
  revert instances st.
  induction members as [|m members IH]; intros instances st.
  - cbn. by rewrite called_nil, app_nil_r.
  - change (describe (m :: members) instances st)
      with (bind (getInstance API (last (gcloud.Instance m)))
              (λ inst, describe members
                 (instances ++
                    [{| instance.ID := gcloud.Name inst;
                        instance.DTags := MetaDataToTags (gcloud.Items inst) |}]))
              st).
    unfold bind, getInstance.
    cbn [member_names fmap list_fmap first_failure fetched gcloud.failure].
    destruct (gcloud.API.GetInstance API (history st)
                (last (gcloud.Instance m))) as [inst|e]; [|done].
    rewrite IH. cbn [history].
    destruct (first_failure _ _ _) as [[k e]|].
    + unfold called, member_names. cbn [groups history take].
      by rewrite <- app_assoc.
    + unfold called, member_names. cbn [groups history].
      by rewrite <- !app_assoc.
Qed.

Lemma DescribeGroup_groups (id : group.ID) st :
  groups (DescribeGroup id st).2 = groups st.
Proof.
  rewrite DescribeGroup_eq. destruct (groups st !! id); [|done].
  cbn zeta. destruct (gcloud.API.ListInstanceGroupInstances _ _ _); [|done].
  fold describe. rewrite describe_eq.
  by destruct (first_failure _ _ _) as [[??]|].
Qed.

Lemma DestroyGroup_groups (id : group.ID) st :
  groups (DestroyGroup id st).2 = groups st
  ∨ groups (DestroyGroup id st).2 = delete id (groups st).
Proof.
  rewrite DestroyGroup_eq. destruct (groups st !! id); [|by left].
  destruct (first_failure _ _ _) as [[??]|]; [by left|by right].
Qed.

Lemma FreeGroup_eq (id : group.ID) st :
  FreeGroup id st =
  match groups st !! id with
  | None => (Err (not_watched id), st)
  | Some _ =>
      (Ok tt, {| groups := delete id (groups st); history := history st |})
  end.
Proof.
  unfold FreeGroup, bind, get_groups. by destruct (groups st !! id).
Qed.

(** The settings that a commit stores, when it stores any, are those of
    [validate] for a new group and the stored ones for a watched group,
    but for the version and the created templates. *)
Lemma CommitGroup_groups config pretend st :
  groups (CommitGroup config pretend st).2 = groups st
  ∨ ∃ settings newSettings,
      groups (CommitGroup config pretend st).2
      = <[group.id config := settings]> (groups st)
      ∧ validate config = Ok newSettings
      ∧ match groups st !! group.id config with
        | None => spec settings = spec newSettings
                  ∧ groupSpec settings = groupSpec newSettings
        | Some old => spec settings = spec old
                      ∧ groupSpec settings = groupSpec old
        end.
Proof.
  rewrite CommitGroup_eq.
  destruct (validate config) as [newSettings|] eqn:Hv; [|by left].
  cbn zeta. destruct pretend.
  - right. eexists _, _. split; [done|]. split; [done|].
    destruct (groups st !! group.id config); cbn; [|done].
    by rewrite andb_false_r.
  - rewrite apply_eq. destruct (metadata_read _); [|by left].
    cbn zeta. destruct (first_failure _ _ _) as [[??]|]; [by left|].
    right. eexists _, _. split; [done|]. split; [done|].
    destruct (groups st !! group.id config); cbn; [|done].
    by destruct (DeepEqual _ _).
Qed.

(** X1: an operation on a group ID that the registry does not hold
    fails with the error that names the group, calls the driver not at
    all and leaves the registry as it is; this for [FreeGroup],
    [DescribeGroup] and [DestroyGroup]. *)
Theorem unknown_group_refused (id : group.ID) st :
  groups st !! id = None →
  FreeGroup id st = (Err (not_watched id), st)
  ∧ DescribeGroup id st = (Err (not_watched id), st)
  ∧ DestroyGroup id st = (Err (not_watched id), st).
Proof.
  intros Hnone. rewrite FreeGroup_eq, DescribeGroup_eq, DestroyGroup_eq.
  by rewrite Hnone.
Qed.

(** X2: [FreeGroup] on a watched group succeeds without a call on the
    driver and removes the entry of that group only; a second
    [FreeGroup] of the same ID then fails, the group being unknown. *)
Theorem FreeGroup_forgets (id : group.ID) st currentSettings :
  groups st !! id = Some currentSettings →
  ∃ st',
    FreeGroup id st = (Ok tt, st')
    ∧ history st' = history st
    ∧ groups st' !! id = None
    ∧ (∀ id' : group.ID, id' ≠ id → groups st' !! id' = groups st !! id')
    ∧ FreeGroup id st' = (Err (not_watched id), st').
Proof.
  intros Hcur. eexists. rewrite FreeGroup_eq, Hcur.
  split; [done|]. cbn [groups history].
  split; [done|]. split; [apply lookup_delete_eq|].
  split; [intros id' Hne; by apply lookup_delete_ne|].
  by rewrite FreeGroup_eq; cbn [groups]; rewrite lookup_delete_eq.
Qed.

(** X3: no operation on one group touches the entry of another: after
    a commit, dry run or not, successful or not, and after [FreeGroup],
    [DescribeGroup] and [DestroyGroup], the registry holds for every
    other ID what it held before. *)
Theorem other_groups_untouched config pretend (id id' : group.ID) st :
  id' ≠ group.id config →
  id' ≠ id →
  groups (CommitGroup config pretend st).2 !! id' = groups st !! id'
  ∧ groups (FreeGroup id st).2 !! id' = groups st !! id'
  ∧ groups (DescribeGroup id st).2 !! id' = groups st !! id'
  ∧ groups (DestroyGroup id st).2 !! id' = groups st !! id'.
Proof.
  intros Hconfig Hid. repeat split.
  - destruct (CommitGroup_groups config pretend st) as [->|(s & ns & -> & _)];
      [done|]. by apply lookup_insert_ne.
  - rewrite FreeGroup_eq. destruct (groups st !! id); [|done].
    by apply lookup_delete_ne.
  - by rewrite DescribeGroup_groups.
  - destruct (DestroyGroup_groups id st) as [->| ->]; [done|].
    by apply lookup_delete_ne.
Qed.

(** X4: the summary that a commit returns when it succeeds is the one
    that a dry run of the same spec on the same state returns: the dry
    run tells what the commit goes on to do. *)
Theorem dry_run_predicts_summary config st summary st' :
  CommitGroup config false st = (Ok summary, st') →
  (CommitGroup config true st).1 = Ok summary.
Proof.
  rewrite !CommitGroup_eq.
  destruct (validate config) as [newSettings|]; [|done].
  cbn zeta. destruct (apply _ _ _ st) as [[settings|e] st1]; [|done].
  intros [= <- _]. cbn [fst]. f_equal. f_equal.
  by destruct (groups st !! group.id config).
Qed.

Lemma entry_ok_record_template id s templateName :
  entry_ok id s → entry_ok id (record_template s templateName).
Proof. done. Qed.

Lemma entry_ok_bump id s : entry_ok id s → entry_ok id (bump s).
Proof. done. Qed.

(** X5: the registry keeps its form through every operation: if every
    entry is stored under the ID of its own declared spec, an ID that is
    not blank, for a positive size and without logical IDs, then so it
    is after a commit, dry run or not, and after [FreeGroup],
    [DescribeGroup] and [DestroyGroup], whatever they return. *)
Theorem registry_ok_preserved config pretend (id : group.ID) st :
  registry_ok st →
  registry_ok (CommitGroup config pretend st).2
  ∧ registry_ok (FreeGroup id st).2
  ∧ registry_ok (DescribeGroup id st).2
  ∧ registry_ok (DestroyGroup id st).2.
Proof.
  unfold registry_ok. intros Hok. split; [|split; [|split]].
  - destruct (CommitGroup_groups config pretend st)
      as [->|(s & ns & -> & Hv & Hs)]; [done|].
    apply map_Forall_insert_2; [|done].
    destruct (validate_Ok _ _ _ _ _ Hv) as (Hid & _ & Hids & Hpos & Hg & _).
    destruct (groups st !! group.id config) as [old|] eqn:Hold.
    + destruct Hs as [Hspec Hgroup]. specialize (Hok _ _ Hold).
      unfold entry_ok in *. by rewrite Hspec, Hgroup.
    + destruct Hs as [Hspec Hgroup]. unfold entry_ok.
      by rewrite Hspec, Hgroup, Hg.
  - rewrite FreeGroup_eq. destruct (groups st !! id); [|done].
    by apply map_Forall_delete.
  - by rewrite DescribeGroup_groups.
  - destruct (DestroyGroup_groups id st) as [->| ->]; [done|].
    by apply map_Forall_delete.
Qed.

(** X6: [InspectGroups] is a pure reading: it calls the driver not at
    all and leaves the state as it is.  On a registry in the form that
    the operations keep it returns the declared spec of every watched
    group and nothing else: as many specs as the registry has entries,
    no ID twice, the stored declared spec of every entry among them, and
    each of them the stored declared spec of the group of its ID. *)
Theorem InspectGroups_lists_watched st :
  registry_ok st →
  ∃ specs,
    InspectGroups st = (Ok specs, st)
    ∧ length specs = size (groups st)
    ∧ NoDup (group.id <$> specs)
    ∧ (∀ id : group.ID, id ∈ (group.id <$> specs) ↔ is_Some (groups st !! id))
    ∧ (∀ (id : group.ID) s, groups st !! id = Some s → groupSpec s ∈ specs)
    ∧ (∀ declared,
         declared ∈ specs →
         ∃ s, groups st !! group.id declared = Some s
              ∧ groupSpec s = declared).
Proof.
  intros Hok. eexists. split; [reflexivity|].
  assert (group.id <$> (groupSpec ∘ snd <$> map_to_list (groups st))
          = (map_to_list (groups st)).*1) as Hids.
  { rewrite <- list_fmap_compose. apply list_fmap_ext.
    intros i [k s] Hks%list_elem_of_lookup_2%elem_of_map_to_list.
    by destruct (Hok k s Hks) as (Hk & _). }
  split; [by rewrite length_fmap, length_map_to_list|].
  rewrite Hids. split; [apply NoDup_fst_map_to_list|].
  split; [|split].
  - intros id. rewrite list_elem_of_fmap. split.
    + intros ([k s] & -> & Hks%elem_of_map_to_list). by exists s.
    + intros [s Hs]. exists (id, s). split; [done|].
      by apply elem_of_map_to_list.
  - intros id s Hs. apply list_elem_of_fmap. exists (id, s).
    split; [done|]. by apply elem_of_map_to_list.
  - intros declared ([k s] & -> & Hks%elem_of_map_to_list)%list_elem_of_fmap.
    exists s. destruct (Hok k s Hks) as (Hk & _). cbn. by rewrite Hk.
Qed.

Lemma fetched_length h names :
  first_failure API h (gcloud.GetInstance <$> names) = None →
  length (fetched h names) = length names.
Proof.
  revert h. induction names as [|n names IH]; intros h; [done|].
  cbn [fmap list_fmap first_failure fetched gcloud.failure].
  destruct (gcloud.API.GetInstance API h n) as [inst|]; [|done].
  destruct (first_failure _ _ _) as [[??]|] eqn:Hff; [done|]. intros _.
  cbn. f_equal. by apply IH.
Qed.

(** X7: a description that succeeds has listed the members of the
    group once and then fetched every member, in the order of the list,
    under the last segment of its URL; it returns one instance for each
    member, with the name and the decoded metadata that the driver gave
    for it, and leaves the registry as it is. *)
Theorem DescribeGroup_fetches_members (id : group.ID) st currentSettings
    members description st' :
  groups st !! id = Some currentSettings →
  gcloud.API.ListInstanceGroupInstances API (history st) id = Ok members →
  DescribeGroup id st = (Ok description, st') →
  history st' = history st ++ describe_calls id members
  ∧ groups st' = groups st
  ∧ group.Instances description
    = fetched (history st ++ [gcloud.ListInstanceGroupInstances id])
        (member_names members)
  ∧ length (group.Instances description) = length members.
Proof.
  intros Hcur Hlist. rewrite DescribeGroup_eq, Hcur, Hlist. cbn zeta.
  fold describe. rewrite describe_eq. cbn [history called].
  destruct (first_failure _ _ _) as [[k e]|] eqn:Hff; [done|].
  intros [= <- <-]. cbn [group.Instances history called groups].
  unfold describe_calls. rewrite <- app_assoc.
  repeat split; try done.
  rewrite (fetched_length _ _ Hff). unfold member_names.
  by rewrite length_fmap.
Qed.

(** X8: a description that fails leaves the registry as it is and
    returns the error of the driver: either the listing of the members
    failed, and it was the only call, or the fetching of one member
    failed, and the calls stopped there, the members after it not being
    fetched. *)
Theorem DescribeGroup_stops_at_failure (id : group.ID) st currentSettings
    e st' :
  groups st !! id = Some currentSettings →
  DescribeGroup id st = (Err e, st') →
  groups st' = groups st
  ∧ ((gcloud.API.ListInstanceGroupInstances API (history st) id = Err e
      ∧ history st' = history st ++ [gcloud.ListInstanceGroupInstances id])
     ∨ ∃ members (k : nat) name,
         gcloud.API.ListInstanceGroupInstances API (history st) id = Ok members
         ∧ member_names members !! k = Some name
         ∧ gcloud.API.GetInstance API
             (history st ++ take (S k) (describe_calls id members)) name
           = Err e
         ∧ history st'
           = history st ++ take (S (S k)) (describe_calls id members)).
Proof.
  intros Hcur. rewrite DescribeGroup_eq, Hcur. cbn zeta.
  destruct (gcloud.API.ListInstanceGroupInstances API (history st) id)
    as [members|e0] eqn:Hlist.
  2:{ intros [= <- <-]. split; [done|]. by left. }
  fold describe. rewrite describe_eq. cbn [history called].
  destruct (first_failure _ _ _) as [[k e0]|] eqn:Hff; [|done].
  intros [= <- <-]. split; [done|]. right.
  destruct (first_failure_Some _ _ _ _ _ Hff) as (c & Hk & Hc & _).
  rewrite list_lookup_fmap in Hk.
  destruct (member_names members !! k) as [name|] eqn:Hname; [|done].
  injection Hk as <-. exists members, k, name.
  split; [done|]. split; [done|]. cbn [gcloud.failure] in Hc.
  unfold describe_calls. cbn [take history called].
  rewrite <- app_assoc in Hc. cbn [app] in Hc.
  split.
  - by destruct (gcloud.API.GetInstance _ _ _) as [|e1]; [|injection Hc as ->].
  - by rewrite <- app_assoc.
Qed.

(** X9: what [validate] returns when it succeeds has passed every
    check: the ID is not blank, the properties decode to the stored
    spec, the logical IDs are nil, the size is positive, the flavor
    plugin was found, has accepted the spec and has prepared the stored
    instance spec, whose properties decode to the stored instance
    properties; the settings are those of a first version, with no
    created template. *)
Theorem validate_sound config newSettings :
  validate config = Ok newSettings →
  ∃ flavorPlugin,
    group.id config ≠ ""
    ∧ ParseProperties config = Ok (spec newSettings)
    ∧ types.LogicalIDs (types.Allocation (spec newSettings)) = None
    ∧ 0 < types.Size (types.Allocation (spec newSettings))
    ∧ flavorPlugins (types.Plugin (types.Flavor (spec newSettings)))
      = Ok flavorPlugin
    ∧ flavor.Validate flavorPlugin
        (types.Properties (types.Flavor (spec newSettings)))
        (types.Allocation (spec newSettings)) = None
    ∧ flavor.Prepare flavorPlugin
        (types.Properties (types.Flavor (spec newSettings)))
        {| instance.Properties :=
             types.Properties (types.Instance (spec newSettings));
           instance.Tags := ∅; instance.Init := "" |}
        (types.Allocation (spec newSettings))
      = Ok (instanceSpec newSettings)
    ∧ ParseInstanceProperties (instance.Properties (instanceSpec newSettings))
      = Ok (instanceProperties newSettings)
    ∧ groupSpec newSettings = config
    ∧ currentTemplate newSettings = 1
    ∧ createdTemplates newSettings = [].
Proof.
  unfold validate, result_bind.
  destruct (decide _) as [|Hid]; [done|].
  destruct (ParseProperties config) as [sp|]; [|done].
  case_bool_decide as Hids; [done|].
  destruct (Z.leb_spec (types.Size (types.Allocation sp)) 0); [done|].
  destruct (flavorPlugins _) as [fp|] eqn:Hfp; [|done].
  destruct (flavor.Validate _ _ _) eqn:Hval; [done|].
  destruct (flavor.Prepare _ _ _ _) as [prepared|] eqn:Hprep; [|done].
  destruct (ParseInstanceProperties _) as [properties|] eqn:Hprops; [|done].
  intros [= <-]. exists fp. cbn. repeat split; done.
Qed.

(** X10: where the error of a commit comes from.  A commit that fails
    leaves the registry as it is, and its error is that of [validate],
    with no call made; or, for a commit that is not a dry run, that of
    the decoding of the metadata, with no call made; or that of the last
    call it made on the driver.  A dry run fails only when validation
    does. *)
Theorem CommitGroup_error_source config pretend st e st' :
  CommitGroup config pretend st = (Err e, st') →
  groups st' = groups st
  ∧ ((validate config = Err e ∧ st' = st)
     ∨ (pretend = false ∧ st' = st ∧ ∃ s, ParseMetadata s = Err e)
     ∨ (pretend = false
        ∧ ∃ (pre : list gcloud.call) c,
            history st' = history st ++ pre ++ [c]
            ∧ gcloud.failure API (history st ++ pre) c = Some e)).
Proof.
  rewrite CommitGroup_eq.
  destruct (validate config) as [newSettings|e0].
  2:{ intros [= <- <-]. split; [done|]. by left. }
  cbn zeta. destruct pretend; [done|]. rewrite apply_eq.
  unfold metadata_read.
  set (v := compare _ _ _ _).
  destruct (createTemplate v).
  - destruct (ParseMetadata _) as [md|e0] eqn:Hmd.
    2:{ intros [= <- <-]. split; [done|]. right; left. eauto. }
    cbn zeta. destruct (first_failure _ _ _) as [[k e0]|] eqn:Hff; [|done].
    intros [= <- <-]. split; [done|]. right; right. split; [done|].
    destruct (first_failure_Some _ _ _ _ _ Hff) as (c & Hk & Hc & _).
    exists (take k (planned_calls (group.id config)
              (int64 (types.Size (types.Allocation (spec newSettings)))) v md)), c.
    split; [|done]. cbn [history called]. by rewrite (take_S_r _ _ _ Hk).
  - cbn zeta. destruct (first_failure _ _ _) as [[k e0]|] eqn:Hff; [|done].
    intros [= <- <-]. split; [done|]. right; right. split; [done|].
    destruct (first_failure_Some _ _ _ _ _ Hff) as (c & Hk & Hc & _).
    exists (take k (planned_calls (group.id config)
              (int64 (types.Size (types.Allocation (spec newSettings)))) v ∅)), c.
    split; [|done]. cbn [history called]. by rewrite (take_S_r _ _ _ Hk).
Qed.

(** X11: a commit that is tried again after a failure starts over: the
    registry having kept nothing of the failed attempt, the commit that
    then succeeds makes all its calls, those included that the failed
    attempt had already made with success. *)
Theorem CommitGroup_retry config st e st1 summary st2 :
  CommitGroup config false st = (Err e, st1) →
  CommitGroup config false st1 = (Ok summary, st2) →
  ∃ (cs : list gcloud.call) (k : nat),
    (k < length cs)%nat
    ∧ history st1 = history st ++ take (S k) cs
    ∧ history st2 = history st1 ++ cs.
Proof.
  rewrite !CommitGroup_eq.
  destruct (validate config) as [newSettings|]; [|done].
  cbn zeta. rewrite !apply_eq.
  destruct (metadata_read _) as [md|] eqn:Hmd.
  2:{ intros [= _ <-]. by rewrite Hmd. }
  cbn zeta. destruct (first_failure API (history st) _) as [[k e0]|] eqn:Hff;
    [|done].
  intros [= _ <-]. cbn [groups called]. rewrite Hmd. cbn zeta.
  destruct (first_failure API (history (called st _)) _) as [[??]|]; [done|].
  intros [= _ <-]. eexists _, k.
  destruct (first_failure_Some _ _ _ _ _ Hff) as (c & Hk & _).
  split; [by eapply lookup_lt_Some|]. by split.
Qed.

(** X12: the commit that created a group can be repeated at no cost:
    after the first successful commit of a group that was not watched,
    a commit of the same spec, dry run or not, succeeds with an empty
    summary and without a call on the driver. *)
Theorem first_commit_idempotent config st summary st1 pretend :
  groups st !! group.id config = None →
  CommitGroup config false st = (Ok summary, st1) →
  ∃ st2,
    CommitGroup config pretend st1 = (Ok "", st2)
    ∧ history st2 = history st1.
Proof.
  intros Hnone. rewrite !CommitGroup_eq.
  destruct (validate config) as [newSettings|]; [|done].
  cbn zeta. rewrite !apply_eq.
  destruct (metadata_read _) as [md|]; [|done].
  cbn zeta. destruct (first_failure _ _ _) as [[??]|]; [done|].
  intros [= _ <-]. cbn [groups]. rewrite lookup_insert_eq, Hnone.
  unfold metadata_read, planned_calls.
  cbn [compare settings_ record_template instanceProperties spec
       createTemplate createManager updateManager resize operations].
  unfold DeepEqual. rewrite bool_decide_eq_true_2 by done.
  rewrite Z.eqb_refl. cbn [negb andb app Join first_failure].
  destruct pretend; eexists; (split; [reflexivity|]); [done|].
  cbn [history called]. by rewrite app_nil_r.
Qed.

(** X14: for a watched group a successful commit changes nothing in
    what there is to do: the registry having kept the instance
    properties and the size that it had, a dry run of the same spec
    after the commit returns the summary that the commit returned. *)
Theorem commit_leaves_summary config st old summary st1 :
  groups st !! group.id config = Some old →
  CommitGroup config false st = (Ok summary, st1) →
  (CommitGroup config true st1).1 = Ok summary.
Proof.
  intros Hold. rewrite !CommitGroup_eq.
  destruct (validate config) as [newSettings|]; [|done].
  cbn zeta. rewrite apply_eq, Hold.
  destruct (metadata_read _) as [md|]; [|done].
  cbn zeta. destruct (first_failure _ _ _) as [[??]|]; [done|].
  intros [= <- <-]. cbn [groups fst]. rewrite lookup_insert_eq.
  cbn [compare operations settings_ record_template instanceProperties spec].
  by destruct (negb (DeepEqual (instanceProperties old) _) && true).
Qed.

(** X15: [FreeGroup] forgets the versions of a group: a commit of the
    group after it was freed takes the group for a new one, stores
    version 1 with the one template name of that version, and asks the
    driver again for the template of version 1 and for a manager. *)
Theorem commit_after_free config st currentSettings summary st2 :
  groups st !! group.id config = Some currentSettings →
  CommitGroup config false (FreeGroup (group.id config) st).2
  = (Ok summary, st2) →
  ∃ newSettings settings',
    validate config = Ok newSettings
    ∧ groups st2 !! group.id config = Some settings'
    ∧ currentTemplate settings' = 1
    ∧ createdTemplates settings' = [template_name (group.id config) 1]
    ∧ operation_of <$> drop (length (history st)) (history st2)
      = [CreateTemplate (template_name (group.id config) 1);
         CreateManager (group.id config)
           (int64 (types.Size (types.Allocation (spec newSettings))))].
Proof.
  intros Hcur. rewrite FreeGroup_eq, Hcur, CommitGroup_eq. cbn [snd].
  destruct (validate config) as [newSettings|] eqn:Hv; [|done].
  destruct (validate_Ok _ _ _ _ _ Hv) as (_ & _ & _ & _ & _ & Hone & Hnil).
  cbn zeta. rewrite apply_eq. cbn [groups]. rewrite lookup_delete_eq.
  unfold metadata_read, planned_calls.
  cbn [compare settings_ createTemplate createManager updateManager resize].
  destruct (ParseMetadata _) as [md|]; [|done].
  cbn zeta. destruct (first_failure _ _ _) as [[??]|]; [done|].
  intros [= _ <-]. exists newSettings. eexists.
  split; [done|]. cbn [groups history called].
  split; [apply lookup_insert_eq|].
  cbn [record_template currentTemplate createdTemplates].
  rewrite Hone, Hnil, drop_app_length. by cbn.
Qed.

(** X16: a dry run returns the empty summary exactly when there is
    nothing to do: the group is watched, with the instance properties
    and the size of the spec.  For a group that is not watched the
    summary is never empty. *)
Theorem empty_summary_iff config st newSettings :
  validate config = Ok newSettings →
  (CommitGroup config true st).1 = Ok ""
  ↔ ∃ old,
      groups st !! group.id config = Some old
      ∧ instanceProperties old = instanceProperties newSettings
      ∧ types.Size (types.Allocation (spec old))
        = types.Size (types.Allocation (spec newSettings)).
Proof.
  intros Hv. rewrite CommitGroup_eq, Hv. cbn zeta. cbn [fst].
  destruct (groups st !! group.id config) as [old|].
  - cbn [compare operations]. unfold DeepEqual.
    destruct (decide (instanceProperties old = instanceProperties newSettings))
      as [Hp|Hp];
      [rewrite bool_decide_eq_true_2 by done
      |rewrite bool_decide_eq_false_2 by done];
      (destruct (Z.eqb_spec (types.Size (types.Allocation (spec old)))
                   (types.Size (types.Allocation (spec newSettings))))
         as [Hs|Hs]); cbn [negb app Join].
    + split; [intros _; by exists old|done].
    + split; [done|]. by intros (? & [= <-] & _ & ?).
    + split; [done|]. by intros (? & [= <-] & ? & _).
    + split; [done|]. by intros (? & [= <-] & ? & _).
  - cbn [compare operations Join]. split; [done|]. by intros (? & ? & _).
Qed.

(** X28: a destruction that is tried again after a failure starts
    over: the entry being still in the registry, the destruction that
    then succeeds asks again for the deletion of the manager and of
    every created template, those included that the failed attempt had
    already deleted, and only then is the group no longer watched. *)
Theorem DestroyGroup_retry (id : group.ID) st currentSettings e st1 st2 :
  groups st !! id = Some currentSettings →
  DestroyGroup id st = (Err e, st1) →
  DestroyGroup id st1 = (Ok tt, st2) →
  ∃ k : nat,
    (k < length (destroy_calls id currentSettings))%nat
    ∧ history st1
      = history st ++ take (S k) (destroy_calls id currentSettings)
    ∧ groups st1 !! id = Some currentSettings
    ∧ history st2 = history st1 ++ destroy_calls id currentSettings
    ∧ groups st2 !! id = None.
Proof.
  intros Hcur. rewrite !DestroyGroup_eq, Hcur.
  destruct (first_failure API (history st) _) as [[k e0]|] eqn:Hff; [|done].
  intros [= _ <-]. cbn [groups called]. rewrite Hcur.
  destruct (first_failure API (history (called _ _)) _) as [[??]|]; [done|].
  intros [= <-]. exists k. cbn [groups history].
  destruct (first_failure_Some _ _ _ _ _ Hff) as (c & Hk & _).
  split; [by eapply lookup_lt_Some|].
  split; [done|]. split; [done|]. split; [done|]. apply lookup_delete_eq.
Qed.

End Registry.

(** ** The last segment of a URL *)

Lemma Split_app p n sep :
  Split (p +:+ String sep n) sep = Split p sep ++ Split n sep.
Proof.
  induction p as [|c p IH]; simpl.
  - by rewrite Ascii.eqb_refl.
  - destruct (Ascii.eqb c sep); [by rewrite IH|].
    rewrite IH. pose proof (Split_nonempty p sep).
    by destruct (Split p sep).
Qed.

Lemma Split_no_sep n sep : occurs sep n = false → Split n sep = [n].
Proof.
  induction n as [|c n IH]; cbn [Split occurs]; [done|].
  intros [Hc Hn]%orb_false_elim. rewrite Hc. by rewrite (IH Hn).
Qed.

Lemma Split_pieces s sep : Forall (λ piece, occurs sep piece = false) (Split s sep).
Proof.
  induction s as [|c s IH]; cbn [Split]; [by repeat constructor|].
  destruct (Ascii.eqb c sep) eqn:Hc; [by constructor|].
  pose proof (Split_nonempty s sep).
  destruct (Split s sep) as [|piece pieces]; [done|].
  apply Forall_cons_1 in IH as [Hpiece Hpieces].
  constructor; [|done]. cbn [occurs]. by rewrite Hc.
Qed.

(** X17: [last] gives back a name that holds no slash: the name itself,
    and the name again when it is the end of a path, after any prefix
    and a slash. *)
Theorem last_of_path n :
  occurs "/" n = false →
  last n = n ∧ ∀ p, last (p +:+ "/" +:+ n) = n.
Proof.
  intros Hn. unfold last. split.
  - by rewrite (Split_no_sep _ _ Hn).
  - intros p. change ("/" +:+ n) with (String "/" n).
    by rewrite Split_app, (Split_no_sep _ _ Hn), last_snoc.
Qed.

(** X18: what [last] returns holds no slash, whatever the URL. *)
Theorem last_has_no_slash url : occurs "/" (last url) = false.
Proof.
  pose proof (last_in_range url) as Hlast%last_Some_elem_of.
  pose proof (Split_pieces url "/") as Hpieces.
  by apply (proj1 (Forall_forall _ _) Hpieces) in Hlast.
Qed.

(** ** The instance plugin *)

Section InstancePlugin.

Variable Unmarshal : string → result instance_plugin.instanceProperties.
Variable Int63 : nat → Z.
Variable TagsToMetaData : gmap string string → gcloud.Metadata.
Variable MetaDataToTags : gcloud.Metadata → gmap string string.
Variable API : list instance_gcloud.call → result instance_gcloud.GCloud.t.

Local Abbreviation parseProperties := (instance_plugin.parseProperties Unmarshal).
Local Abbreviation Validate := (instance_plugin.Validate Unmarshal).
Local Abbreviation Provision :=
  (instance_plugin.Provision Unmarshal Int63 TagsToMetaData API).
Local Abbreviation Destroy := (instance_plugin.Destroy API).
Local Abbreviation DescribeInstances :=
  (instance_plugin.DescribeInstances MetaDataToTags API).
Local Abbreviation scan := (instance_plugin.scan MetaDataToTags).

Lemma parseProperties_fields raw p :
  parseProperties raw = Ok p →
  ∃ q, Unmarshal raw = Ok q
       ∧ instance_plugin.MachineType p = instance_plugin.MachineType q
       ∧ instance_plugin.Network p = instance_plugin.Network q.
Proof.
  unfold instance_plugin.parseProperties.
  destruct (Unmarshal raw) as [q|]; [|done].
  intros [= <-]. exists q. split; [done|].
  destruct (decide (instance_plugin.NamePrefix q = ""));
    cbn [instance_plugin.DiskSizeMb];
    by destruct (instance_plugin.DiskSizeMb q =? 0).
Qed.

(** X19: the properties that [parseProperties] returns are the decoded
    ones with two defaults: a blank name prefix becomes [instance] and a
    disk size of zero becomes 10; so the prefix is never blank and the
    disk size never zero, and the other fields are as decoded. *)
Theorem parseProperties_defaults raw p :
  parseProperties raw = Ok p →
  ∃ q,
    Unmarshal raw = Ok q
    ∧ instance_plugin.NamePrefix p
      = (if decide (instance_plugin.NamePrefix q = "") then "instance"
         else instance_plugin.NamePrefix q)
    ∧ instance_plugin.DiskSizeMb p
      = (if decide (instance_plugin.DiskSizeMb q = 0) then 10
         else instance_plugin.DiskSizeMb q)
    ∧ instance_plugin.NamePrefix p ≠ ""
    ∧ instance_plugin.DiskSizeMb p ≠ 0
    ∧ instance_plugin.Description p = instance_plugin.Description q
    ∧ instance_plugin.MachineType p = instance_plugin.MachineType q
    ∧ instance_plugin.Network p = instance_plugin.Network q
    ∧ instance_plugin.Tags p = instance_plugin.Tags q
    ∧ instance_plugin.Scopes p = instance_plugin.Scopes q.
Proof.
  unfold instance_plugin.parseProperties.
  destruct (Unmarshal raw) as [q|]; [|done].
  intros [= <-]. exists q. split; [done|].
  destruct (decide (instance_plugin.NamePrefix q = "")) as [Hn|Hn];
    cbn [instance_plugin.DiskSizeMb];
    (destruct (Z.eqb_spec (instance_plugin.DiskSizeMb q) 0) as [Hd|Hd];
     [rewrite (decide_True _ _ Hd)|rewrite (decide_False _ _ Hd)]);
    cbn; repeat split; done.
Qed.

(** X20: [Validate] accepts exactly the properties that decode and name
    a machine type and a network; nothing else is required, the name
    prefix and the disk size having defaults. *)
Theorem Validate_accepts_iff req :
  Validate req = None
  ↔ ∃ q, Unmarshal req = Ok q
         ∧ instance_plugin.MachineType q ≠ ""
         ∧ instance_plugin.Network q ≠ "".
Proof.
  unfold instance_plugin.Validate.
  destruct (parseProperties req) as [p|e] eqn:Hp.
  - destruct (parseProperties_fields _ _ Hp) as (q & Hq & Hm & Hn).
    rewrite Hm, Hn.
    destruct (decide (instance_plugin.MachineType q = "")),
      (decide (instance_plugin.Network q = "")); cbn; split; try done.
    + by intros (? & [= <-]%(eq_trans (eq_sym Hq)) & ? & ?).
    + by intros (? & [= <-]%(eq_trans (eq_sym Hq)) & ? & ?).
    + by intros (? & [= <-]%(eq_trans (eq_sym Hq)) & ? & ?).
    + intros _. by exists q.
  - split; [done|]. intros (q & Hq & _). revert Hp.
    unfold instance_plugin.parseProperties. by rewrite Hq.
Qed.

(** X21: the error of [Validate] for properties that decode names the
    fields that are missing, the machine type before the network. *)
Theorem Validate_names_missing req q :
  Unmarshal req = Ok q →
  Validate req =
    if decide (instance_plugin.MachineType q = "") then
      if decide (instance_plugin.Network q = "")
      then Some "Missing: MachineType, Network"
      else Some "Missing: MachineType"
    else
      if decide (instance_plugin.Network q = "")
      then Some "Missing: Network"
      else None.
Proof.
  intros Hq. unfold instance_plugin.Validate.
  destruct (parseProperties req) as [p|e] eqn:Hp.
  - destruct (parseProperties_fields _ _ Hp) as (q' & Hq' & Hm & Hn).
    rewrite Hq in Hq'. injection Hq' as <-. rewrite Hm, Hn.
    by destruct (decide (instance_plugin.MachineType q = "")),
      (decide (instance_plugin.Network q = "")).
  - revert Hp. unfold instance_plugin.parseProperties. by rewrite Hq.
Qed.

Lemma copy_tags_id tags : instance_plugin.copy_tags tags = tags.
Proof.
  unfold instance_plugin.copy_tags. rewrite map_fold_foldr.
  rewrite <- (list_to_map_to_list tags) at 2.
  by induction (map_to_list tags) as [|[k v] l IH]; [|cbn; rewrite IH].
Qed.

(** X22: a provisioning that succeeds has drawn one random number and
    made one call, [CreateInstance], under the name that it returns:
    the name prefix of the properties, a dash and the number drawn.  The
    settings of the call are the parsed properties, field by field
    (description, machine type, network, tags, disk size and scopes),
    and its metadata the tags of the spec, to which the init script is added under
    [startup-script] when it is not empty, in the place of a tag of
    that name. *)
Theorem Provision_creates_one spec w id w' :
  Provision spec w = (Ok id, w') →
  ∃ p settings,
    parseProperties (instance.Properties spec) = Ok p
    ∧ id = instance_plugin.NamePrefix p +:+ "-"
           +:+ fmt_d (Int63 (instance_plugin.draws w))
    ∧ instance_plugin.calls w'
      = instance_plugin.calls w ++ [instance_gcloud.CreateInstance id settings]
    ∧ instance_plugin.draws w' = S (instance_plugin.draws w)
    ∧ instance_gcloud.Description settings = instance_plugin.Description p
    ∧ instance_gcloud.MachineType settings = instance_plugin.MachineType p
    ∧ instance_gcloud.Network settings = instance_plugin.Network p
    ∧ instance_gcloud.Tags settings = instance_plugin.Tags p
    ∧ instance_gcloud.DiskSizeMb settings = instance_plugin.DiskSizeMb p
    ∧ instance_gcloud.Scopes settings = instance_plugin.Scopes p
    ∧ instance_gcloud.MetaData settings
      = TagsToMetaData
          (if decide (instance.Init spec = "") then instance.Tags spec
           else <["startup-script" := instance.Init spec]> (instance.Tags spec)).
Proof.
  unfold instance_plugin.Provision.
  destruct (parseProperties _) as [p|]; [|done].
  cbn zeta. cbn [instance_plugin.calls].
  destruct (API _) as [api|]; [|done].
  destruct (instance_gcloud.GCloud.CreateInstance _ _ _ _); [done|].
  intros [= <- <-]. eexists p, _. rewrite copy_tags_id.
  split; [done|]. split; [done|]. cbn. repeat split; done.
Qed.

(** X23: a provisioning that fails returns the error of its first step
    that failed.  When the properties do not decode, nothing is drawn
    and nothing called; when the driver cannot be had, a number is drawn
    and nothing called; when the creation fails, a number is drawn and
    the creation is the one call made. *)
Theorem Provision_failure spec w e w' :
  Provision spec w = (Err e, w') →
  (parseProperties (instance.Properties spec) = Err e ∧ w' = w)
  ∨ (∃ p, parseProperties (instance.Properties spec) = Ok p)
    ∧ instance_plugin.draws w' = S (instance_plugin.draws w)
    ∧ ((API (instance_plugin.calls w) = Err e
        ∧ instance_plugin.calls w' = instance_plugin.calls w)
       ∨ ∃ api name settings,
           API (instance_plugin.calls w) = Ok api
           ∧ instance_gcloud.GCloud.CreateInstance api
               (instance_plugin.calls w) name settings = Some e
           ∧ instance_plugin.calls w'
             = instance_plugin.calls w
               ++ [instance_gcloud.CreateInstance name settings]).
Proof.
  unfold instance_plugin.Provision.
  destruct (parseProperties _) as [p|e0]; [|intros [= <- <-]; by left].
  cbn zeta. cbn [instance_plugin.calls].
  destruct (API _) as [api|e0] eqn:Hapi.
  2:{ intros [= <- <-]. right. split; [by exists p|]. split; [done|]. by left. }
  destruct (instance_gcloud.GCloud.CreateInstance _ _ _ _) as [e0|] eqn:Hc;
    [|done].
  intros [= <- <-]. right. split; [by exists p|]. split; [done|].
  right. by eexists api, _, _.
Qed.

(** X24: [Destroy] of the ID that a provisioning returned draws no
    number.  When the driver can be had, it makes one call, the deletion
    of the instance under the name under which it was created, and
    returns what the driver answers; when the driver cannot be had, it
    returns that error and makes no call. *)
Theorem Destroy_after_Provision spec w id w1 :
  Provision spec w = (Ok id, w1) →
  ∃ settings,
    instance_plugin.draws (Destroy id w1).2 = instance_plugin.draws w1
    ∧ match API (instance_plugin.calls w1) with
      | Ok api =>
          instance_plugin.calls (Destroy id w1).2
          = instance_plugin.calls w
            ++ [instance_gcloud.CreateInstance id settings;
                instance_gcloud.DeleteInstance id]
          ∧ (Destroy id w1).1
            = instance_gcloud.GCloud.DeleteInstance api
                (instance_plugin.calls w1) id
      | Err e =>
          instance_plugin.calls (Destroy id w1).2
          = instance_plugin.calls w
            ++ [instance_gcloud.CreateInstance id settings]
          ∧ (Destroy id w1).1 = Some e
      end.
Proof.
  unfold instance_plugin.Provision.
  destruct (parseProperties _) as [p|]; [|done].
  cbn zeta. cbn [instance_plugin.calls].
  destruct (API (instance_plugin.calls w)) as [api0|]; [|done].
  destruct (instance_gcloud.GCloud.CreateInstance _ _ _ _); [done|].
  intros [= <- <-]. eexists. unfold instance_plugin.Destroy.
  destruct (API _) as [api|e]; cbn; [|done].
  by rewrite <- app_assoc.
Qed.

Lemma matches_spec tags instTags :
  instance_plugin.matches tags instTags = true
  ↔ map_Forall (λ k v, default "" (instTags !! k) = v) tags.
Proof.
  unfold instance_plugin.matches.
  rewrite map_Forall_to_list, <- Is_true_true, forallb_True.
  apply Forall_proper; [|done]. intros [k v]. cbn.
  by rewrite bool_decide_spec.
Qed.

(** X25: [DescribeInstances] lists the instances once and returns, in
    the order of the list, those whose decoded metadata agree with every
    requested tag, a tag that an instance lacks counting as the empty
    string; each with its name and its decoded metadata. *)
Theorem DescribeInstances_filters tags w descriptions w' :
  DescribeInstances tags w = (Ok descriptions, w') →
  ∃ api instances,
    API (instance_plugin.calls w) = Ok api
    ∧ instance_gcloud.GCloud.ListInstances api (instance_plugin.calls w)
      = Ok instances
    ∧ instance_plugin.calls w'
      = instance_plugin.calls w ++ [instance_gcloud.ListInstances]
    ∧ instance_plugin.draws w' = instance_plugin.draws w
    ∧ descriptions
      = (λ inst, {| instance.ID := gcloud.Name inst;
                    instance.DTags := MetaDataToTags (gcloud.Items inst) |})
        <$> filter
              (λ inst,
                 map_Forall
                   (λ k v,
                      default "" (MetaDataToTags (gcloud.Items inst) !! k) = v)
                   tags)
              instances.
Proof.
  unfold instance_plugin.DescribeInstances.
  destruct (API _) as [api|] eqn:Hapi; [|done].
  destruct (instance_gcloud.GCloud.ListInstances _ _) as [instances|] eqn:Hl;
    [|done].
  intros [= <- <-]. exists api, instances. repeat split; try done.
  clear Hl. induction instances as [|inst instances IH]; [done|].
  cbn [instance_plugin.scan]. rewrite filter_cons.
  destruct (decide _) as [Hall|Hnot].
  - apply matches_spec in Hall. rewrite Hall. cbn. by rewrite IH.
  - destruct (instance_plugin.matches tags _) eqn:Hm; [|done].
    by apply matches_spec in Hm.
Qed.

(** X26: with no tag requested, [DescribeInstances] returns every
    instance that the driver lists, in the order of the list. *)
Theorem DescribeInstances_all w api instances :
  API (instance_plugin.calls w) = Ok api →
  instance_gcloud.GCloud.ListInstances api (instance_plugin.calls w)
  = Ok instances →
  (DescribeInstances ∅ w).1
  = Ok ((λ inst, {| instance.ID := gcloud.Name inst;
                    instance.DTags := MetaDataToTags (gcloud.Items inst) |})
        <$> instances).
Proof.
  intros Hapi Hlist. unfold instance_plugin.DescribeInstances.
  rewrite Hapi, Hlist. cbn [fst]. f_equal. clear Hlist.
  induction instances as [|inst instances IH]; [done|].
  cbn [instance_plugin.scan].
  rewrite (proj2 (matches_spec ∅ _)) by apply map_Forall_empty.
  by rewrite IH.
Qed.

(** X27: a requested tag with the empty string for value is met by the
    instances that carry the tag with that value and by those that do
    not carry the tag at all. *)
Theorem empty_tag_matches_missing (k : string) (instTags : gmap string string) :
  instance_plugin.matches {[k := ""]} instTags = true
  ↔ instTags !! k = None ∨ instTags !! k = Some "".
Proof.
  rewrite matches_spec, map_Forall_singleton.
  destruct (instTags !! k) as [v|]; cbn; split; try done.
  - intros ->. by right.
  - by intros [|[= ->]].
  - intros _. by left.
Qed.

End InstancePlugin.

(** ** The further theorems on the stand-ins *)

Lemma registry_ok_both : registry_ok MoreDoubles.both.
Proof.
  apply map_Forall_to_list. vm_compute.
  repeat (constructor || discriminate).
Qed.

Lemma unknown_group_refused_witness :
  groups Doubles.nothing !! "g" = None
  ∧ FreeGroup "g" Doubles.nothing
    = (Err "This group is not being watched: 'g", Doubles.nothing)
  ∧ DescribeGroup Doubles.MetaDataToTags Doubles.obliging "g" Doubles.nothing
    = (Err "This group is not being watched: 'g", Doubles.nothing)
  ∧ DestroyGroup Doubles.obliging "g" Doubles.nothing
    = (Err "This group is not being watched: 'g", Doubles.nothing).
Proof.
  split; [reflexivity|].
  apply (unknown_group_refused Doubles.MetaDataToTags Doubles.obliging "g"
           Doubles.nothing).
  reflexivity.
Defined.

Lemma FreeGroup_forgets_witness :
  groups Doubles.committed !! "g" = Some MoreDoubles.stored
  ∧ ∃ st',
      FreeGroup "g" Doubles.committed = (Ok tt, st')
      ∧ history st' = history Doubles.committed
      ∧ groups st' !! "g" = None
      ∧ (∀ id' : group.ID,
           id' ≠ "g" → groups st' !! id' = groups Doubles.committed !! id')
      ∧ FreeGroup "g" st' = (Err (not_watched "g"), st').
Proof.
  split; [vm_compute; reflexivity|].
  apply (FreeGroup_forgets "g" Doubles.committed MoreDoubles.stored).
  vm_compute. reflexivity.
Defined.

Lemma other_groups_untouched_witness :
  groups (Doubles.commit Doubles.obliging (Doubles.g "5 small") false
            MoreDoubles.both).2 !! "h"
  = groups MoreDoubles.both !! "h"
  ∧ groups (DestroyGroup Doubles.obliging "g" MoreDoubles.both).2 !! "h"
    = groups MoreDoubles.both !! "h".
Proof.
  destruct (other_groups_untouched Doubles.ParseProperties
              Doubles.flavorPlugins Doubles.ParseInstanceProperties
              Doubles.ParseMetadata Doubles.TagsToMetaData
              Doubles.MetaDataToTags Doubles.obliging
              (Doubles.g "5 small") false "g" "h" MoreDoubles.both)
    as (Hcommit & _ & _ & Hdestroy).
  - discriminate.
  - discriminate.
  - split; [exact Hcommit|exact Hdestroy].
Defined.

Lemma dry_run_predicts_summary_witness :
  (Doubles.commit Doubles.obliging (Doubles.g "5 large") true
     Doubles.committed).1
  = Ok ("Updating instance template" +:+ newline
        +:+ "Scaling group to 5 instance.").
Proof.
  apply (dry_run_predicts_summary Doubles.ParseProperties
           Doubles.flavorPlugins Doubles.ParseInstanceProperties
           Doubles.ParseMetadata Doubles.TagsToMetaData Doubles.obliging
           (Doubles.g "5 large") Doubles.committed _
           (Doubles.commit Doubles.obliging (Doubles.g "5 large") false
              Doubles.committed).2).
  vm_compute. reflexivity.
Defined.

Lemma registry_ok_preserved_witness :
  registry_ok MoreDoubles.both
  ∧ registry_ok
      (Doubles.commit Doubles.obliging (Doubles.g "5 large") false
         MoreDoubles.both).2
  ∧ registry_ok (FreeGroup "h" MoreDoubles.both).2
  ∧ registry_ok
      (DescribeGroup Doubles.MetaDataToTags Doubles.obliging "h"
         MoreDoubles.both).2
  ∧ registry_ok (DestroyGroup Doubles.obliging "h" MoreDoubles.both).2.
Proof.
  split; [exact registry_ok_both|].
  apply (registry_ok_preserved Doubles.ParseProperties
           Doubles.flavorPlugins Doubles.ParseInstanceProperties
           Doubles.ParseMetadata Doubles.TagsToMetaData
           Doubles.MetaDataToTags Doubles.obliging
           (Doubles.g "5 large") false "h" MoreDoubles.both).
  exact registry_ok_both.
Defined.

Example registry_after_commit_on_both :
  (groupSpec <$>
     groups (Doubles.commit Doubles.obliging (Doubles.g "5 large") false
               MoreDoubles.both).2 !! "g") = Some (Doubles.g "3 small")
  ∧ (groupSpec <$>
       groups (Doubles.commit Doubles.obliging (Doubles.g "5 large") false
                 MoreDoubles.both).2 !! "h") = Some (MoreDoubles.h "5 large").
Proof. vm_compute. auto. Qed.

Lemma InspectGroups_lists_watched_witness :
  ∃ specs,
    InspectGroups MoreDoubles.both = (Ok specs, MoreDoubles.both)
    ∧ length specs = size (groups MoreDoubles.both)
    ∧ NoDup (group.id <$> specs)
    ∧ (∀ id : group.ID,
         id ∈ (group.id <$> specs) ↔ is_Some (groups MoreDoubles.both !! id))
    ∧ (∀ (id : group.ID) s,
         groups MoreDoubles.both !! id = Some s → groupSpec s ∈ specs)
    ∧ (∀ declared,
         declared ∈ specs →
         ∃ s, groups MoreDoubles.both !! group.id declared = Some s
              ∧ groupSpec s = declared).
Proof.
  apply (InspectGroups_lists_watched MoreDoubles.both).
  exact registry_ok_both.
Defined.

Example inspect_both :
  (InspectGroups MoreDoubles.both).1
  = Ok [Doubles.g "3 small"; MoreDoubles.h "5 large"]
  ∨ (InspectGroups MoreDoubles.both).1
    = Ok [MoreDoubles.h "5 large"; Doubles.g "3 small"].
Proof. vm_compute. auto. Qed.

Lemma DescribeGroup_fetches_members_witness :
  let r :=
    DescribeGroup Doubles.MetaDataToTags Doubles.three_members "g"
      Doubles.committed in
  r.1 = Ok {| group.Converged := true;
              group.Instances :=
                [MoreDoubles.described "g-a"; MoreDoubles.described "g-b";
                 MoreDoubles.described "g-c"] |}
  ∧ history r.2
    = history Doubles.committed
      ++ [gcloud.ListInstanceGroupInstances "g"; gcloud.GetInstance "g-a";
          gcloud.GetInstance "g-b"; gcloud.GetInstance "g-c"]
  ∧ groups r.2 = groups Doubles.committed.
Proof.
  split; [vm_compute; reflexivity|].
  destruct (DescribeGroup_fetches_members Doubles.MetaDataToTags
              Doubles.three_members "g" Doubles.committed MoreDoubles.stored
              MoreDoubles.three
              {| group.Converged := true;
                 group.Instances :=
                   [MoreDoubles.described "g-a"; MoreDoubles.described "g-b";
                    MoreDoubles.described "g-c"] |}
              (DescribeGroup Doubles.MetaDataToTags Doubles.three_members "g"
                 Doubles.committed).2)
    as (Hhistory & Hgroups & _).
  - vm_compute. reflexivity.
  - reflexivity.
  - vm_compute. reflexivity.
  - split; [exact Hhistory|exact Hgroups].
Defined.

Lemma DescribeGroup_stops_at_failure_witness :
  let r :=
    DescribeGroup Doubles.MetaDataToTags MoreDoubles.second_lost "g"
      Doubles.committed in
  r.1 = Err "instance not found"
  ∧ drop (length (history Doubles.committed)) (history r.2)
    = [gcloud.ListInstanceGroupInstances "g"; gcloud.GetInstance "g-a";
       gcloud.GetInstance "g-b"]
  ∧ groups r.2 = groups Doubles.committed.
Proof.
  split; [vm_compute; reflexivity|]. split; [vm_compute; reflexivity|].
  apply (DescribeGroup_stops_at_failure Doubles.MetaDataToTags
           MoreDoubles.second_lost "g" Doubles.committed MoreDoubles.stored
           "instance not found").
  - vm_compute. reflexivity.
  - vm_compute. reflexivity.
Defined.

Lemma validate_sound_witness :
  Doubles.check (Doubles.g "3 small")
  = Ok (Doubles.settings_of "3 small" 3 "small")
  ∧ ∃ flavorPlugin,
      Doubles.flavorPlugins "vanilla" = Ok flavorPlugin
      ∧ flavor.Validate flavorPlugin ""
          {| types.Size := 3; types.LogicalIDs := None |} = None.
Proof.
  split; [reflexivity|].
  destruct (validate_sound Doubles.ParseProperties Doubles.flavorPlugins
              Doubles.ParseInstanceProperties (Doubles.g "3 small")
              (Doubles.settings_of "3 small" 3 "small"))
    as (fp & _ & _ & _ & _ & Hfp & Hval & _).
  - reflexivity.
  - exists fp. split; [exact Hfp|exact Hval].
Defined.

Lemma CommitGroup_error_source_witness :
  let r :=
    Doubles.commit Doubles.no_manager (Doubles.g "3 small") false
      Doubles.nothing in
  r.1 = Err "quota exceeded" ∧ groups r.2 = groups Doubles.nothing.
Proof.
  split; [vm_compute; reflexivity|].
  apply (CommitGroup_error_source Doubles.ParseProperties
           Doubles.flavorPlugins Doubles.ParseInstanceProperties
           Doubles.ParseMetadata Doubles.TagsToMetaData Doubles.no_manager
           (Doubles.g "3 small") false Doubles.nothing "quota exceeded").
  vm_compute. reflexivity.
Defined.

Example retry_repeats_template :
  let st1 :=
    (Doubles.commit MoreDoubles.flaky (Doubles.g "3 small") false
       Doubles.nothing).2 in
  let st2 :=
    (Doubles.commit MoreDoubles.flaky (Doubles.g "3 small") false st1).2 in
  operation_of <$> history st2
  = [CreateTemplate "g-1"; CreateManager "g" 3;
     CreateTemplate "g-1"; CreateManager "g" 3].
Proof. vm_compute. reflexivity. Qed.

Lemma CommitGroup_retry_witness :
  let st1 :=
    (Doubles.commit MoreDoubles.flaky (Doubles.g "3 small") false
       Doubles.nothing).2 in
  let st2 :=
    (Doubles.commit MoreDoubles.flaky (Doubles.g "3 small") false st1).2 in
  ∃ (cs : list gcloud.call) (k : nat),
    (k < length cs)%nat
    ∧ history st1 = history Doubles.nothing ++ take (S k) cs
    ∧ history st2 = history st1 ++ cs.
Proof.
  apply (CommitGroup_retry Doubles.ParseProperties Doubles.flavorPlugins
           Doubles.ParseInstanceProperties Doubles.ParseMetadata
           Doubles.TagsToMetaData MoreDoubles.flaky (Doubles.g "3 small")
           Doubles.nothing "quota exceeded" _ "Managing 3 instances").
  - vm_compute. reflexivity.
  - vm_compute. reflexivity.
Defined.

Lemma first_commit_idempotent_witness :
  ∃ st2,
    Doubles.commit Doubles.obliging (Doubles.g "3 small") false
      Doubles.committed = (Ok "", st2)
    ∧ history st2 = history Doubles.committed.
Proof.
  apply (first_commit_idempotent Doubles.ParseProperties
           Doubles.flavorPlugins Doubles.ParseInstanceProperties
           Doubles.ParseMetadata Doubles.TagsToMetaData Doubles.obliging
           (Doubles.g "3 small") Doubles.nothing "Managing 3 instances"
           Doubles.committed false).
  - reflexivity.
  - vm_compute. reflexivity.
Defined.

Lemma CommitGroup_keeps_stored_spec_witness :
  ∃ settings',
    groups Doubles.updated !! "g" = Some settings'
    ∧ spec settings' = Doubles.mkSpec 3 None "vanilla" "small"
    ∧ groupSpec settings' = Doubles.g "3 small"
    ∧ instanceSpec settings'
      = {| instance.Properties := "small"; instance.Tags := ∅;
           instance.Init := "" |}
    ∧ instanceProperties settings' = Doubles.properties_of "small"
    ∧ (currentTemplate settings' = 1 ∨ currentTemplate settings' = int (1 + 1))
    ∧ createdTemplates settings'
      = ["g-1"] ++ [template_name "g" (currentTemplate settings')].
Proof.
  apply (CommitGroup_keeps_stored_spec Doubles.ParseProperties
           Doubles.flavorPlugins Doubles.ParseInstanceProperties
           Doubles.ParseMetadata Doubles.TagsToMetaData Doubles.obliging
           (Doubles.g "3 large") Doubles.committed
           "Updating instance template" Doubles.updated MoreDoubles.stored).
  - vm_compute. reflexivity.
  - vm_compute. reflexivity.
Defined.

Lemma commit_leaves_summary_witness :
  (Doubles.commit Doubles.obliging (Doubles.g "3 large") true
     Doubles.updated).1 = Ok "Updating instance template".
Proof.
  apply (commit_leaves_summary Doubles.ParseProperties Doubles.flavorPlugins
           Doubles.ParseInstanceProperties Doubles.ParseMetadata
           Doubles.TagsToMetaData Doubles.obliging (Doubles.g "3 large")
           Doubles.committed MoreDoubles.stored).
  - vm_compute. reflexivity.
  - vm_compute. reflexivity.
Defined.

Lemma commit_after_free_witness :
  ∃ newSettings settings',
    Doubles.check (Doubles.g "5 large") = Ok newSettings
    ∧ groups (Doubles.commit Doubles.obliging (Doubles.g "5 large") false
                (FreeGroup "g" Doubles.updated).2).2 !! "g" = Some settings'
    ∧ currentTemplate settings' = 1
    ∧ createdTemplates settings' = [template_name "g" 1]
    ∧ operation_of <$>
        drop (length (history Doubles.updated))
          (history (Doubles.commit Doubles.obliging (Doubles.g "5 large")
                      false (FreeGroup "g" Doubles.updated).2).2)
      = [CreateTemplate (template_name "g" 1);
         CreateManager "g"
           (int64 (types.Size (types.Allocation (spec newSettings))))].
Proof.
  apply (commit_after_free Doubles.ParseProperties Doubles.flavorPlugins
           Doubles.ParseInstanceProperties Doubles.ParseMetadata
           Doubles.TagsToMetaData Doubles.obliging (Doubles.g "5 large")
           Doubles.updated Doubles.updated_settings "Managing 5 instances").
  - vm_compute. reflexivity.
  - vm_compute. reflexivity.
Defined.

Lemma empty_summary_iff_witness :
  (Doubles.commit Doubles.obliging (Doubles.g "3 small") true
     Doubles.committed).1 = Ok ""
  ↔ ∃ old,
      groups Doubles.committed !! "g" = Some old
      ∧ instanceProperties old = Doubles.properties_of "small"
      ∧ types.Size (types.Allocation (spec old)) = 3.
Proof.
  apply (empty_summary_iff Doubles.ParseProperties Doubles.flavorPlugins
           Doubles.ParseInstanceProperties Doubles.ParseMetadata
           Doubles.TagsToMetaData Doubles.obliging (Doubles.g "3 small")
           Doubles.committed (Doubles.settings_of "3 small" 3 "small")).
  reflexivity.
Defined.

Lemma last_of_path_witness :
  last "g-a" = "g-a"
  ∧ last ("https://www.googleapis.com/compute/v1/projects/p/zones/z/instances"
          +:+ "/" +:+ "g-a") = "g-a".
Proof.
  destruct (last_of_path "g-a") as [Hname Hpath]; [reflexivity|].
  split; [exact Hname|apply Hpath].
Defined.

Example provision_boot :
  (InstanceDoubles.provision InstanceDoubles.boot InstanceDoubles.fresh).1
  = Ok "web-4037200794235010051".
Proof. vm_compute. reflexivity. Qed.

Lemma parseProperties_defaults_witness :
  InstanceDoubles.parse "{}"
  = Ok (InstanceDoubles.properties "instance" "" "" 10)
  ∧ ∃ q,
      InstanceDoubles.Unmarshal "{}" = Ok q
      ∧ instance_plugin.NamePrefix
          (InstanceDoubles.properties "instance" "" "" 10)
        = (if decide (instance_plugin.NamePrefix q = "") then "instance"
           else instance_plugin.NamePrefix q).
Proof.
  split; [reflexivity|].
  destruct (parseProperties_defaults InstanceDoubles.Unmarshal "{}"
              (InstanceDoubles.properties "instance" "" "" 10))
    as (q & Hq & Hprefix & _).
  - reflexivity.
  - exists q. split; [exact Hq|exact Hprefix].
Defined.

Lemma Validate_names_missing_witness :
  instance_plugin.Validate InstanceDoubles.Unmarshal "no network"
  = Some "Missing: Network".
Proof.
  apply (Validate_names_missing InstanceDoubles.Unmarshal "no network"
           (InstanceDoubles.properties "" "small" "" 0)).
  reflexivity.
Defined.

Lemma Provision_creates_one_witness :
  ∃ p settings,
    InstanceDoubles.parse "web small" = Ok p
    ∧ "web-4037200794235010051"
      = instance_plugin.NamePrefix p +:+ "-"
        +:+ fmt_d (InstanceDoubles.Int63 0)
    ∧ instance_plugin.calls
        (InstanceDoubles.provision InstanceDoubles.boot
           InstanceDoubles.fresh).2
      = [] ++ [instance_gcloud.CreateInstance "web-4037200794235010051"
                 settings]
    ∧ instance_plugin.draws
        (InstanceDoubles.provision InstanceDoubles.boot
           InstanceDoubles.fresh).2 = 1%nat
    ∧ instance_gcloud.Description settings = instance_plugin.Description p
    ∧ instance_gcloud.MachineType settings = instance_plugin.MachineType p
    ∧ instance_gcloud.Network settings = instance_plugin.Network p
    ∧ instance_gcloud.Tags settings = instance_plugin.Tags p
    ∧ instance_gcloud.DiskSizeMb settings = instance_plugin.DiskSizeMb p
    ∧ instance_gcloud.Scopes settings = instance_plugin.Scopes p
    ∧ instance_gcloud.MetaData settings
      = InstanceDoubles.TagsToMetaData
          (<["startup-script" := "echo new"]>
             {["group" := "g"; "startup-script" := "echo old"]}).
Proof.
  apply (Provision_creates_one InstanceDoubles.Unmarshal InstanceDoubles.Int63
           InstanceDoubles.TagsToMetaData InstanceDoubles.API
           InstanceDoubles.boot InstanceDoubles.fresh
           "web-4037200794235010051"
           (InstanceDoubles.provision InstanceDoubles.boot
              InstanceDoubles.fresh).2).
  vm_compute. reflexivity.
Defined.

Lemma Provision_failure_witness :
  let r :=
    instance_plugin.Provision InstanceDoubles.Unmarshal InstanceDoubles.Int63
      InstanceDoubles.TagsToMetaData InstanceDoubles.full_API
      InstanceDoubles.boot InstanceDoubles.fresh in
  r.1 = Err "quota exceeded"
  ∧ ((InstanceDoubles.parse "web small" = Err "quota exceeded"
      ∧ r.2 = InstanceDoubles.fresh)
     ∨ (∃ p, InstanceDoubles.parse "web small" = Ok p)
       ∧ instance_plugin.draws r.2 = 1%nat
       ∧ ((InstanceDoubles.full_API [] = Err "quota exceeded"
           ∧ instance_plugin.calls r.2 = [])
          ∨ ∃ api name settings,
              InstanceDoubles.full_API [] = Ok api
              ∧ instance_gcloud.GCloud.CreateInstance api [] name settings
                = Some "quota exceeded"
              ∧ instance_plugin.calls r.2
                = [] ++ [instance_gcloud.CreateInstance name settings])).
Proof.
  split; [vm_compute; reflexivity|].
  apply (Provision_failure InstanceDoubles.Unmarshal InstanceDoubles.Int63
           InstanceDoubles.TagsToMetaData InstanceDoubles.full_API
           InstanceDoubles.boot InstanceDoubles.fresh "quota exceeded").
  vm_compute. reflexivity.
Defined.

Lemma Destroy_after_Provision_witness :
  let w1 :=
    (InstanceDoubles.provision InstanceDoubles.boot InstanceDoubles.fresh).2 in
  ∃ settings,
    instance_plugin.draws
      (instance_plugin.Destroy InstanceDoubles.API
         "web-4037200794235010051" w1).2 = 1%nat
    ∧ instance_plugin.calls
        (instance_plugin.Destroy InstanceDoubles.API
           "web-4037200794235010051" w1).2
      = [] ++ [instance_gcloud.CreateInstance "web-4037200794235010051"
                 settings;
               instance_gcloud.DeleteInstance "web-4037200794235010051"]
    ∧ (instance_plugin.Destroy InstanceDoubles.API
         "web-4037200794235010051" w1).1 = None.
Proof.
  apply (Destroy_after_Provision InstanceDoubles.Unmarshal
           InstanceDoubles.Int63 InstanceDoubles.TagsToMetaData
           InstanceDoubles.API InstanceDoubles.boot InstanceDoubles.fresh
           "web-4037200794235010051"
           (InstanceDoubles.provision InstanceDoubles.boot
              InstanceDoubles.fresh).2).
  vm_compute. reflexivity.
Defined.

Example destroy_without_driver :
  instance_plugin.Destroy (λ _, Err "no driver") "web-1" InstanceDoubles.fresh
  = (Some "no driver", InstanceDoubles.fresh).
Proof. reflexivity. Qed.

Example describe_group_g :
  (InstanceDoubles.describe_instances {["group" := "g"]}
     InstanceDoubles.fresh).1
  = Ok [{| instance.ID := "web-1"; instance.DTags := {["group" := "g"]} |};
        {| instance.ID := "web-2";
           instance.DTags := {["group" := "g"; "tier" := "front"]} |}].
Proof. vm_compute. reflexivity. Qed.

Example describe_without_tier :
  InstanceDoubles.names_of
    (InstanceDoubles.describe_instances {["tier" := ""]}
       InstanceDoubles.fresh).1
  = ["web-1"; "db-1"].
Proof. vm_compute. reflexivity. Qed.

Lemma DescribeInstances_filters_witness :
  ∃ api instances,
    InstanceDoubles.API [] = Ok api
    ∧ instance_gcloud.GCloud.ListInstances api [] = Ok instances
    ∧ instance_plugin.calls
        (InstanceDoubles.describe_instances {["group" := "g"]}
           InstanceDoubles.fresh).2
      = [] ++ [instance_gcloud.ListInstances]
    ∧ instance_plugin.draws
        (InstanceDoubles.describe_instances {["group" := "g"]}
           InstanceDoubles.fresh).2 = 0%nat
    ∧ [{| instance.ID := "web-1"; instance.DTags := {["group" := "g"]} |};
       {| instance.ID := "web-2";
          instance.DTags := {["group" := "g"; "tier" := "front"]} |}]
      = (λ inst, {| instance.ID := gcloud.Name inst;
                    instance.DTags :=
                      InstanceDoubles.MetaDataToTags (gcloud.Items inst) |})
        <$> filter
              (λ inst,
                 map_Forall
                   (λ k v,
                      default ""
                        (InstanceDoubles.MetaDataToTags (gcloud.Items inst)
                           !! k) = v)
                   ({["group" := "g"]} : gmap string string))
              instances.
Proof.
  apply (DescribeInstances_filters InstanceDoubles.MetaDataToTags
           InstanceDoubles.API {["group" := "g"]} InstanceDoubles.fresh _
           (InstanceDoubles.describe_instances {["group" := "g"]}
              InstanceDoubles.fresh).2).
  vm_compute. reflexivity.
Defined.

Lemma DescribeInstances_all_witness :
  InstanceDoubles.names_of
    (InstanceDoubles.describe_instances ∅ InstanceDoubles.fresh).1
  = ["web-1"; "db-1"; "web-2"].
Proof.
  unfold InstanceDoubles.describe_instances.
  rewrite (DescribeInstances_all InstanceDoubles.MetaDataToTags
             InstanceDoubles.API InstanceDoubles.fresh InstanceDoubles.cloud
             InstanceDoubles.fleet eq_refl eq_refl).
  reflexivity.
Defined.

Lemma DestroyGroup_retry_witness :
  let st1 := (DestroyGroup MoreDoubles.busy_once "g" Doubles.updated).2 in
  let st2 := (DestroyGroup MoreDoubles.busy_once "g" st1).2 in
  ∃ k : nat,
    (k < length (destroy_calls "g" Doubles.updated_settings))%nat
    ∧ history st1
      = history Doubles.updated
        ++ take (S k) (destroy_calls "g" Doubles.updated_settings)
    ∧ groups st1 !! "g" = Some Doubles.updated_settings
    ∧ history st2 = history st1 ++ destroy_calls "g" Doubles.updated_settings
    ∧ groups st2 !! "g" = None.
Proof.
  apply (DestroyGroup_retry MoreDoubles.busy_once "g" Doubles.updated
           Doubles.updated_settings "template in use").
  - vm_compute. reflexivity.
  - vm_compute. reflexivity.
  - vm_compute. reflexivity.
Defined.

Example destroy_retry_deletes_again :
  let st1 := (DestroyGroup MoreDoubles.busy_once "g" Doubles.updated).2 in
  let st2 := (DestroyGroup MoreDoubles.busy_once "g" st1).2 in
  operation_of <$> drop (length (history Doubles.updated)) (history st2)
  = [DeleteManager "g"; DeleteTemplate "g-1"; DeleteTemplate "g-2";
     DeleteManager "g"; DeleteTemplate "g-1"; DeleteTemplate "g-2"].
Proof. vm_compute. reflexivity. Qed.
